(** * cold-Mail: a shallow embedding of [app.py]

    The program is a Gradio application that fills an e-mail template,
    asks a hosted language model for a draft, lets the user refine the
    draft in a chat, logs the submission to a spreadsheet and sends the
    result through a transactional e-mail service.

    Python values are modelled as follows.
    - [str] is [string]; an element of a [string] stands for one
      character of the Python string.
    - a [dict] with string keys (the keyword arguments of the template code) is
      a [gmap string string].
    - a chat history is a list of pairs [(request, reply)], each
      component being [None] or a string.
    - the external collaborators ([requests], [BeautifulSoup], the Groq
      client, the Sheets service, [resend]) are the fields of an
      environment record; every call is recorded in a trace of events,
      and a raised exception is a value of type [exn]. *)

From stdpp Require Import gmap strings list.
From Stdlib Require Import Ascii ZArith Lia.

Set Warnings "-abstract-large-number".

Local Open Scope Z_scope.
Local Open Scope stdpp_scope.

(** ** Python string and list primitives *)

Module Py.

Definition nl : string := String "010"%char EmptyString.
Definition dq : string := String "034"%char EmptyString.

(** [len(s)] *)
Definition len (s : string) : nat := String.length s.

(** [s.startswith(p)] *)
Fixpoint startswith (p s : string) : bool :=
  match p, s with
  | EmptyString, _ => true
  | String a p', String b s' => if Ascii.eqb a b then startswith p' s' else false
  | String _ _, EmptyString => false
  end.

(** [s.find(sub)], as the offset of the leftmost occurrence. *)
Fixpoint find_from (sub s : string) (i : nat) : option nat :=
  if startswith sub s then Some i
  else match s with
       | EmptyString => None
       | String _ s' => find_from sub s' (S i)
       end.

Definition find (s sub : string) : Z :=
  match find_from sub s 0 with
  | Some i => Z.of_nat i
  | None => -1
  end.

(** [sub in s] *)
Definition contains (s sub : string) : bool :=
  match find_from sub s 0 with Some _ => true | None => false end.

(** [s[:n]] for [0 <= n]. *)
Fixpoint take (n : nat) (s : string) : string :=
  match n, s with
  | S n', String c s' => String c (take n' s')
  | _, _ => EmptyString
  end.

(** [s[n:]] for [0 <= n]. *)
Fixpoint drop (n : nat) (s : string) : string :=
  match n, s with
  | S n', String _ s' => drop n' s'
  | _, _ => s
  end.

(** [s[a:b]] for non-negative [a] and [b] (the only case the program
    reaches: both bounds come from [find] plus a length, or [len]). *)
Definition slice (s : string) (a b : Z) : string :=
  take (Z.to_nat b - Z.to_nat a)%nat (drop (Z.to_nat a) s).

(** [s.split(sep)] for a non-empty [sep]: the pieces between the
    non-overlapping occurrences of [sep], scanned from the left.
    [skip] counts the characters of a matched separator still to be
    passed over. *)
Fixpoint split_go (sep s : string) (skip : nat) : list string :=
  match s with
  | EmptyString => [EmptyString]
  | String c s' =>
      match skip with
      | S k => split_go sep s' k
      | O =>
          if startswith sep s
          then EmptyString :: split_go sep s' (String.length sep - 1)
          else match split_go sep s' 0 with
               | x :: xs => String c x :: xs
               | [] => [String c EmptyString]
               end
      end
  end.

Definition split (s sep : string) : list string := split_go sep s 0.

(** [sep.join(l)] *)
Fixpoint join (sep : string) (l : list string) : string :=
  match l with
  | [] => EmptyString
  | [x] => x
  | x :: xs => x +:+ sep +:+ join sep xs
  end.

(** [c.isspace()] on the characters a [string] can hold. *)
Definition isspace (c : ascii) : bool :=
  let n := nat_of_ascii c in
  ((9 <=? n) && (n <=? 13) || (28 <=? n) && (n <=? 32)
   || (n =? 133) || (n =? 160))%nat.

Fixpoint lstrip (s : string) : string :=
  match s with
  | String c s' => if isspace c then lstrip s' else s
  | EmptyString => EmptyString
  end.

Fixpoint rstrip (s : string) : string :=
  match s with
  | EmptyString => EmptyString
  | String c s' =>
      match rstrip s' with
      | EmptyString => if isspace c then EmptyString else String c EmptyString
      | r => String c r
      end
  end.

(** [s.strip()] *)
Definition strip (s : string) : string := rstrip (lstrip s).

(** [str(x)] for a value that is [None] or a string, as an f-string
    renders it. *)
Definition str_opt (o : option string) : string :=
  match o with Some s => s | None => "None" end.

End Py.

(** ** Exceptions, events and the effect monad *)

(** The exceptions the program can see.  [ExternalError msg] is an
    exception raised inside a collaborator, with [str(e) = msg].
    [NotModelled] marks a replacement field of [str.format] outside the
    fragment embedded below. *)
Inductive exn : Type :=
| ValueError (msg : string)
| KeyError (key : string)
| IndexError (msg : string)
| AttributeError (msg : string)
| TypeError (msg : string)
| ExternalError (msg : string)
| NotModelled (what : string).

(** [str(e)].  For a [KeyError] this is the [repr] of the key; the keys
    of this program are identifiers, for which [repr] adds single
    quotes and nothing else. *)
Definition str_exn (e : exn) : string :=
  match e with
  | ValueError m => m
  | KeyError k => "'" +:+ k +:+ "'"
  | IndexError m => m
  | AttributeError m => m
  | TypeError m => m
  | ExternalError m => m
  | NotModelled w => w
  end.

Definition list_index_out_of_range : exn := IndexError "list index out of range".

(** One chat message: [{"role": r, "content": c}]. *)
Record message : Type := Message { role : string; content : string }.

(** The dictionary handed to [resend.Emails.send]. The keys are written
    as in the source, [from] apart, which is a keyword here. *)
Record email_params : Type := EmailParams {
  from_ : string;
  to : string;
  subject : string;
  html : string;
  reply_to : string
}.

(** What [BeautifulSoup(...)] gives the program: the text of each [<p>]
    element, in document order, and the text of the whole document. *)
Record soup : Type := Soup {
  find_all_p : list string;
  get_text : string
}.

(** Every call that leaves the process. *)
Inductive event : Type :=
| HttpGet (url : string)
| ChatCompletion (model : string) (messages : list message)
| SheetsAppend (row : list string)
| ResendSend (params : email_params).

Abbreviation trace := (list event).

(** The collaborators. Each may answer differently as the run goes on,
    so each sees the trace of the calls made before it. *)
Record Env : Type := {
  requests_get : trace -> string -> exn + string;
  BeautifulSoup : string -> exn + soup;
  chat_completions_create : trace -> string -> list message -> exn + string;
  sheets_append : trace -> list string -> exn + unit;
  resend_send : trace -> email_params -> exn + option string
}.

(** A computation reads the trace so far and returns a value or a raised
    exception, with the trace extended by the calls it made. *)
Definition M (A : Type) : Type := trace -> (exn + A) * trace.

Definition ret {A} (a : A) : M A := fun tr => (inr a, tr).
Definition raise {A} (e : exn) : M A := fun tr => (inl e, tr).

Definition bind {A B} (m : M A) (k : A -> M B) : M B :=
  fun tr =>
    match m tr with
    | (inr a, tr') => k a tr'
    | (inl e, tr') => (inl e, tr')
    end.

(** [try: body  except Exception as e: handler(e)] *)
Definition try_except {A} (body : M A) (handler : exn -> M A) : M A :=
  fun tr =>
    match body tr with
    | (inr a, tr') => (inr a, tr')
    | (inl e, tr') => handler e tr'
    end.

(** A pure step that may raise. *)
Definition lift {A} (r : exn + A) : M A := fun tr => (r, tr).

(** A call to a collaborator: the event is recorded, then the answer
    (or the exception) comes back. *)
Definition call {A} (ev : event) (answer : trace -> exn + A) : M A :=
  fun tr => (answer tr, tr ++ [ev]).

Notation "x <- m ;; k" := (bind m (fun x => k))
  (at level 100, m at next level, right associativity).

Definition raised {A} (r : (exn + A) * trace) : option exn :=
  match fst r with inl e => Some e | inr _ => None end.
Definition returned {A} (r : (exn + A) * trace) : option A :=
  match fst r with inr a => Some a | inl _ => None end.
Definition calls {A} (r : (exn + A) * trace) : trace := snd r.

(** ** [str.format] with keyword arguments

    The fragment embedded: literal text, the escapes [{{] and [}}], and
    replacement fields [{name}] whose name is looked up in the keyword
    arguments.  Conversions ([!r]), format specifications ([:spec]),
    attribute and index access and numbered fields do not occur in the
    templates of this program; a field using them yields [NotModelled].

    As in CPython the format string is cut into pieces from the left,
    and the pieces are rendered in turn: the first problem met, a
    malformed piece or a missing key, is the one raised. *)

Inductive segment : Type :=
| Chr (c : ascii)
| Fld (name : string)
| Malformed (msg : string).

(** Where the scanner stands: in literal text, after a [{], after a
    [}], or inside a replacement field whose name read so far is
    [name]. *)
Inductive scan_state : Type :=
| Text
| AfterOpen
| AfterClose
| InField (name : string).

Fixpoint parse_go (s : string) (st : scan_state) : list segment :=
  match s with
  | EmptyString =>
      match st with
      | Text => []
      | AfterOpen => [Malformed "Single '{' encountered in format string"]
      | AfterClose => [Malformed "Single '}' encountered in format string"]
      | InField _ => [Malformed "expected '}' before end of string"]
      end
  | String c r =>
      match st with
      | Text =>
          if Ascii.eqb c "{" then parse_go r AfterOpen
          else if Ascii.eqb c "}" then parse_go r AfterClose
          else Chr c :: parse_go r Text
      | AfterOpen =>
          if Ascii.eqb c "{" then Chr "{" :: parse_go r Text
          else if Ascii.eqb c "}" then Fld EmptyString :: parse_go r Text
          else parse_go r (InField (String c EmptyString))
      | AfterClose =>
          if Ascii.eqb c "}" then Chr "}" :: parse_go r Text
          else [Malformed "Single '}' encountered in format string"]
      | InField name =>
          if Ascii.eqb c "}" then Fld name :: parse_go r Text
          else parse_go r (InField (name +:+ String c EmptyString))
      end
  end.

Definition parse (s : string) : list segment := parse_go s Text.

Definition is_digit (c : ascii) : bool :=
  let n := nat_of_ascii c in ((48 <=? n) && (n <=? 57))%nat.

Definition special_field_char (c : ascii) : bool :=
  existsb (Ascii.eqb c) ["."; "["; "]"; "!"; ":"; "{"]%char.

Fixpoint has_special (s : string) : bool :=
  match s with
  | EmptyString => false
  | String c s' => special_field_char c || has_special s'
  end.

(** A field name that is a key of the keyword arguments and nothing
    more. *)
Definition plain_name (name : string) : bool :=
  match name with
  | EmptyString => false
  | String c _ => negb (is_digit c || has_special name)
  end.

(** The value of the replacement field [name]: [kwargs[name]]. *)
Definition format_lookup (kwargs : gmap string string) (name : string) : exn + string :=
  match name with
  | EmptyString =>
      inl (IndexError "Replacement index 0 out of range for positional args tuple")
  | String c _ =>
      if is_digit c || has_special name then inl (NotModelled name)
      else match kwargs !! name with
           | Some v => inr v
           | None => inl (KeyError name)
           end
  end.

Definition cons_ok (c : ascii) (r : exn + string) : exn + string :=
  match r with inr s => inr (String c s) | inl e => inl e end.

Definition app_ok (v : string) (r : exn + string) : exn + string :=
  match r with inr s => inr (v +:+ s) | inl e => inl e end.

Fixpoint render (kwargs : gmap string string) (segs : list segment) : exn + string :=
  match segs with
  | [] => inr EmptyString
  | Chr c :: rest => cons_ok c (render kwargs rest)
  | Fld name :: rest =>
      match format_lookup kwargs name with
      | inr v => app_ok v (render kwargs rest)
      | inl e => inl e
      end
  | Malformed msg :: _ => inl (ValueError msg)
  end.

(** [s.format] applied to the keyword arguments [kwargs]. *)
Definition format (s : string) (kwargs : gmap string string) : exn + string :=
  render kwargs (parse s).

(** The names of the replacement fields, in the order of the text. *)
Fixpoint fields_of (segs : list segment) : list string :=
  match segs with
  | [] => []
  | Fld name :: rest => name :: fields_of rest
  | _ :: rest => fields_of rest
  end.

Definition well_formed (segs : list segment) : bool :=
  forallb (fun seg => match seg with
                      | Chr _ => true
                      | Fld name => plain_name name
                      | Malformed _ => false
                      end) segs.

(** The text with every field replaced by its value, [''] standing for
    a missing one. *)
Fixpoint fill (kwargs : gmap string string) (segs : list segment) : string :=
  match segs with
  | [] => EmptyString
  | Chr c :: rest => String c (fill kwargs rest)
  | Fld name :: rest => default EmptyString (kwargs !! name) +:+ fill kwargs rest
  | Malformed _ :: rest => fill kwargs rest
  end.

(** The first name of [fields] that is no key of [kwargs]. *)
Fixpoint first_missing (kwargs : gmap string string) (fields : list string)
  : option string :=
  match fields with
  | [] => None
  | f :: rest =>
      match kwargs !! f with
      | None => Some f
      | Some _ => first_missing kwargs rest
      end
  end.

(** [l] without the repetitions of a name already met. *)
Fixpoint first_occurrences (seen l : list string) : list string :=
  match l with
  | [] => []
  | x :: rest =>
      if bool_decide (x ∈ seen) then first_occurrences seen rest
      else x :: first_occurrences (x :: seen) rest
  end.

(** ** The template engine *)

Record EmailTemplate : Type := {
  name : string;
  template : string;
  required_fields : list string
}.

Definition job_application_template : string :=
  "
                Dear {hiring_manager_name},

                I am writing to express my strong interest in the {job_title} position at {company_name}. With my background in {relevant_skills}, I believe I would be a valuable asset to your team.

                {experience_summary}

                Some of my key achievements include:
                {key_achievements}

                I am particularly drawn to {company_name} because {reason_for_interest}. I am excited about the opportunity to bring my skills and passion to your team.

                Thank you for considering my application. I look forward to the opportunity to discuss how I can contribute to {company_name}'s success.

                Best regards,
                {applicant_name}
                ".

Definition sales_pitch_template : string :=
  "
                Dear {recipient_name},

                I hope this email finds you well. I'm reaching out because {reason_for_contact}. Our product, {product_name}, can help you {main_benefit}.

                Some key features of {product_name} include:
                {key_features}

                Our customers have seen remarkable results, such as:
                {customer_results}

                I'd love to schedule a call to discuss how {product_name} can specifically benefit {company_name}. Are you available for a quick 15-minute chat this week?

                Looking forward to the opportunity to help {company_name} achieve its goals.

                Best regards,
                {sender_name}
                {sender_position}
                {sender_company}
                ".

(** [EmailTemplateEngine.templates]; a Python dict keeps the order in
    which its keys were inserted, so the registry is an association
    list. *)
Definition templates : list (string * EmailTemplate) :=
  [ ("job_application",
     {| name := "Job Application";
        template := job_application_template;
        required_fields :=
          ["hiring_manager_name"; "job_title"; "company_name"; "relevant_skills";
           "experience_summary"; "key_achievements"; "reason_for_interest";
           "applicant_name"] |});
    ("sales_pitch",
     {| name := "Sales Pitch";
        template := sales_pitch_template;
        required_fields :=
          ["recipient_name"; "reason_for_contact"; "product_name"; "main_benefit";
           "key_features"; "customer_results"; "company_name"; "sender_name";
           "sender_position"; "sender_company"] |}) ].

Definition get_template_names : list string := map fst templates.

Fixpoint assoc {A} (k : string) (l : list (string * A)) : option A :=
  match l with
  | [] => None
  | (k', v) :: l' => if String.eqb k' k then Some v else assoc k l'
  end.

Definition get_template (template_name : string) : option EmailTemplate :=
  assoc template_name templates.

Definition get_required_fields (template_name : string) : list string :=
  match get_template template_name with
  | Some t => required_fields t
  | None => []
  end.

(** Calling [f(a, ..., **kwargs)] for a function whose named parameters
    [params] are all given by position: a key of [kwargs] that is the
    name of one of them is a second value for it, and the call raises
    [TypeError] before the body runs.  (When several keys clash CPython
    names the first in the order of the mapping; the model, which keeps
    no such order, names the first in the order of the parameters.) *)
Fixpoint bind_keywords (fname : string) (params : list string)
    (kwargs : gmap string string) : exn + unit :=
  match params with
  | [] => inr tt
  | p :: rest =>
      match kwargs !! p with
      | Some _ =>
          inl (TypeError (fname +:+ "() got multiple values for argument '"
                          +:+ p +:+ "'"))
      | None => bind_keywords fname rest kwargs
      end
  end.

Definition model_id : string := "mixtral-8x7b-32768".

(** [client.chat.completions.create(model=..., messages=...)] followed by
    [.choices[0].message.content]. *)
Definition completion (env : Env) (messages : list message) : M string :=
  call (ChatCompletion model_id messages)
       (fun tr => chat_completions_create env tr model_id messages).

Definition customize_template (env : Env) (template_name : string)
    (kwargs : gmap string string) : M string :=
  _ <- lift (bind_keywords "EmailTemplateEngine.customize_template"
               ["self"; "template_name"] kwargs) ;;
  match get_template template_name with
  | None => raise (ValueError ("Template '" +:+ template_name +:+ "' not found"))
  | Some t =>
      prompt <- lift (format (template t) kwargs) ;;
      completion env [Message "user" prompt]
  end.


(** ** Python list indexing *)

(** [l[i]] for [0 <= i]. *)
Definition getitem {A} (l : list A) (i : nat) : exn + A :=
  match l !! i with
  | Some x => inr x
  | None => inl list_index_out_of_range
  end.

(** [l[-k]] for [1 <= k]. *)
Definition getitem_neg {A} (l : list A) (k : nat) : exn + A :=
  if (k <=? length l)%nat then getitem l (length l - k) else inl list_index_out_of_range.

(** [d.get(k, '')] *)
Definition dict_get (d : gmap string string) (k : string) : string :=
  default EmptyString (d !! k).

(** ** Spreadsheet, HTML body and delivery *)

Definition save_to_google_sheets (env : Env) (data : list string) : M unit :=
  call (SheetsAppend data) (fun tr => sheets_append env tr data).

(** The three fixed pieces of the f-string of [create_html_email]: up to
    the content, from the content to the sender's name, and after the
    sender's address. *)
Definition html_head : string :=
  "
    <!DOCTYPE html>
    <html lang=" +:+ Py.dq +:+ "en" +:+ Py.dq +:+ ">
    <head>
        <meta charset=" +:+ Py.dq +:+ "UTF-8" +:+ Py.dq +:+ ">
        <meta name=" +:+ Py.dq +:+ "viewport" +:+ Py.dq +:+ " content=" +:+ Py.dq +:+ "width=device-width, initial-scale=1.0" +:+ Py.dq +:+ ">
        <title>Professional Email</title>
        <style>
            body {
                font-family: Arial, sans-serif;
                line-height: 1.6;
                color: #333;
                max-width: 600px;
                margin: 0 auto;
                padding: 20px;
            }
            .header {
                border-bottom: 2px solid #0066cc;
                padding-bottom: 10px;
                margin-bottom: 20px;
            }
            .footer {
                border-top: 1px solid #ddd;
                padding-top: 10px;
                margin-top: 20px;
                font-size: 0.9em;
                color: #666;
            }
            .content {
                white-space: pre-wrap;
                font-family: Arial, sans-serif;
                line-height: 1.6;
            }
        </style>
    </head>
    <body>
        <div class=" +:+ Py.dq +:+ "header" +:+ Py.dq +:+ ">
            <h2>Professional Communication</h2>
        </div>
        <div class=" +:+ Py.dq +:+ "content" +:+ Py.dq +:+ ">
".

Definition html_footer_open : string :=
  "
        </div>
        <div class=" +:+ Py.dq +:+ "footer" +:+ Py.dq +:+ ">
            <p>Best regards,<br>".

Definition html_tail : string :=
  "</p>
        </div>
    </body>
    </html>
    ".

Definition create_html_email (content sender_name sender_email : string) : string :=
  html_head +:+ content +:+ html_footer_open +:+ sender_name +:+ "<br>"
  +:+ sender_email +:+ html_tail.

(** The dictionary [send_email] passes to [resend.Emails.send]. *)
Definition send_params (from_name from_email to_email subject content : string)
  : email_params :=
  {| from_ := from_name +:+ " <onboarding@resend.dev>";
     to := to_email;
     subject := subject;
     html := create_html_email content from_name from_email;
     reply_to := from_email |}.

Definition send_email (env : Env) (from_name from_email to_email subject content : string)
  : M bool :=
  try_except
    (let params := send_params from_name from_email to_email subject content in
     response <- call (ResendSend params) (fun tr => resend_send env tr params) ;;
     match response with
     | Some _ => ret true
     | None => raise (KeyError "id")
     end)
    (fun _ => ret false).

(** ** Context fetch *)

(** The two numbers of [scrape_website]. *)
Definition paragraph_threshold : nat := 1000.
Definition context_limit : nat := 5000.

Definition scrape_website (env : Env) (url : string) : M string :=
  try_except
    (response <- call (HttpGet url) (fun tr => requests_get env tr url) ;;
     soup <- lift (BeautifulSoup env response) ;;
     let text := Py.join " " (find_all_p soup) in
     let text := if (Py.len text <? paragraph_threshold)%nat then get_text soup else text in
     ret (Py.take context_limit text))
    (fun e => ret ("Error scraping website: " +:+ str_exn e)).

(** ** Generation *)

Definition blank_line : string := Py.nl +:+ Py.nl.

Definition analysis_prompt (website_context skills : string) : string :=
  "
        Based on the following job description and website content:
        "
    +:+ website_context
    +:+ "

        1. Extract 3-5 key required skills for this position.
        2. Identify 2-3 of the applicant's skills that best match the required skills.
        3. Provide 3 specific, detailed examples of how the applicant's skills can be used to help the organization grow or improve.
        4. Suggest 2 improvements for character development or storylines, using specific examples from the website content. These suggestions should demonstrate how the applicant's skills can be applied to make the characters or narratives more fascinating.

        Applicant's Skills: "
    +:+ skills
    +:+ "

        Format the response as:
        Required Skills: skill1, skill2, skill3, ...

        Matching Skills: skill1, skill2, skill3

        Growth Ideas:
        1. [Detailed example 1]
        2. [Detailed example 2]
        3. [Detailed example 3]

        Character/Storyline Improvement Suggestions:
        1. [Detailed suggestion 1, incorporating applicant's skills and website content]
        2. [Detailed suggestion 2, incorporating applicant's skills and website content]
        ".

(** The three entries of the dictionary passed to [kwargs.update], in
    the order in which the dictionary display evaluates them. *)
Definition key_achievements_of (analysis_result : string) : exn + string :=
  match getitem (Py.split analysis_result blank_line) 2 with
  | inr section =>
      inr ("- " +:+ Py.join (Py.nl +:+ "- ") (drop 1 (Py.split section Py.nl)))
  | inl e => inl e
  end.

Definition reason_for_interest_of (analysis_result : string) : exn + string :=
  getitem_neg (Py.split analysis_result blank_line) 1.

Definition analysis_update (analysis_result : string) (kwargs : gmap string string)
  : exn + gmap string string :=
  match key_achievements_of analysis_result with
  | inl e => inl e
  | inr key_achievements =>
      match reason_for_interest_of analysis_result with
      | inl e => inl e
      | inr reason_for_interest =>
          inr (<["reason_for_interest" := reason_for_interest]>
               (<["key_achievements" := key_achievements]>
                (<["experience_summary" := analysis_result]> kwargs)))
      end
  end.

Definition generate_cold_email (env : Env) (template_name : string)
    (kwargs : gmap string string) : M string :=
  _ <- lift (bind_keywords "generate_cold_email" ["template_name"] kwargs) ;;
  if String.eqb template_name "job_application" then
    let skills := dict_get kwargs "relevant_skills" in
    let job_url := dict_get kwargs "job_url" in
    website_context <- scrape_website env job_url ;;
    analysis_result <-
      completion env [Message "user" (analysis_prompt website_context skills)] ;;
    kwargs' <- lift (analysis_update analysis_result kwargs) ;;
    customize_template env template_name kwargs'
  else customize_template env template_name kwargs.

(** ** The edit chat *)

(** One entry of the chat history: [[request, reply]]. *)
Abbreviation turn := (option string * option string)%type.

Definition edit_prompt (latest_email full_context message : string) : string :=
  "
        Original Email (or Latest Version):
        "
    +:+ latest_email
    +:+ "

        Edit History:
        "
    +:+ full_context
    +:+ "

        User's Latest Edit Request:
        "
    +:+ message
    +:+ "

        Please provide an updated version of the email incorporating the user's edit request. 
        Maintain the overall structure and key points of the original email while making the requested changes.
        Consider all previous edits and requests when making this update.
        ".

Definition transcript_line (h : turn) : string :=
  "Human: " +:+ Py.str_opt h.1 +:+ Py.nl +:+ "AI: " +:+ Py.str_opt h.2.

Definition no_split : exn := AttributeError "'NoneType' object has no attribute 'split'".

Definition chat_function (env : Env) (message : option string) (history : list turn)
  : M string :=
  match history with
  | [] => ret "Please use the 'Generate Email' button to create your initial email."
  | h0 :: _ =>
      let full_context := Py.join Py.nl (map transcript_line history) in
      latest_email <-
        lift (match h0.2 with
              | Some reply => getitem_neg (Py.split reply blank_line) 2
              | None => inl no_split
              end) ;;
      edited_email <-
        completion env
          [Message "system" "You are an AI assistant helping to refine an email.";
           Message "user" (edit_prompt latest_email full_context (Py.str_opt message))] ;;
      ret ("Here's the updated version of your email based on your request:"
           +:+ blank_line +:+ edited_email +:+ blank_line
           +:+ "You can continue to edit this email by sending more edit requests.")
  end.

(** ** The callbacks of the interface *)

Definition generate_email_action (env : Env)
    (template_name name email skills url : string)
    (dynamic_inputs : gmap string string) : M (list turn) :=
  try_except
    (let fields : gmap string string :=
       dynamic_inputs ∪
       (<["sender_name" := name]>
        (<["sender_email" := email]>
         (<["relevant_skills" := skills]>
          (<["job_url" := url]> ∅)))) in
     generated_email <- generate_cold_email env template_name fields ;;
     _ <- save_to_google_sheets env [name; email; template_name; skills; url] ;;
     ret [(None,
           Some ("Here's your generated email:" +:+ blank_line +:+ generated_email
                 +:+ blank_line
                 +:+ "You can now edit this email by sending your edit requests."))])
    (fun e => ret [(None, Some ("Error generating email: " +:+ str_exn e))]).

Definition no_find : exn := AttributeError "'NoneType' object has no attribute 'find'".

(** The text between the two markers of the generation message, as
    [send_email_action] cuts it out of the last reply. *)
Definition extract_email_content (latest_email_message : string) : string :=
  let marker := "Here's your generated email:" in
  let email_content_start :=
    Py.find latest_email_message marker + Z.of_nat (Py.len marker) in
  let email_content_end :=
    Py.find latest_email_message (blank_line +:+ "You can now edit this email") in
  let email_content_end :=
    if email_content_end =? -1
    then Z.of_nat (Py.len latest_email_message)
    else email_content_end in
  Py.strip (Py.slice latest_email_message email_content_start email_content_end).

Definition send_email_action (env : Env) (name email recipient : string)
    (chatbot : list turn) : M string :=
  match chatbot with
  | [] => ret "Please generate an email first."
  | _ :: _ =>
      if String.eqb recipient EmptyString
      then ret "Please enter the recipient's email address."
      else
        latest_email_message <-
          lift (match getitem_neg chatbot 1 with
                | inr (_, Some reply) => inr reply
                | inr (_, None) => inl no_find
                | inl e => inl e
                end) ;;
        let email_content := extract_email_content latest_email_message in
        success <- send_email env name email recipient "Professional Communication"
                              email_content ;;
        ret (if success : bool
             then "Email sent successfully!"
             else "Failed to send email. Please try again.")
  end.

Definition user (user_message : string) (history : list turn) : string * list turn :=
  (EmptyString, history ++ [(Some user_message, None)]).

Definition bot (env : Env) (history : list turn) : M (list turn) :=
  match getitem_neg history 1 with
  | inl e => raise e
  | inr (user_message, _) =>
      bot_message <- chat_function env user_message (take (length history - 1) history) ;;
      ret (<[(length history - 1)%nat := (user_message, Some bot_message)]> history)
  end.

(** [msg.submit(user, ...).then(bot, ...)]: one edit request. *)
Definition edit (env : Env) (request_text : string) (history : list turn)
  : M (list turn) :=
  bot env (user request_text history).2.

(** [N] edit requests, one after the other; the run stops at the first
    one that raises. *)
Fixpoint edits (env : Env) (requests : list string) (history : list turn)
  : M (list turn) :=
  match requests with
  | [] => ret history
  | r :: rs => history' <- edit env r history ;; edits env rs history'
  end.

(** ** The interface state

    The components of the Gradio page that the callbacks read and
    write.  A callback that raises leaves its output components as they
    were; the error is shown to the user and is no part of the state. *)

Record App : Type := {
  name_input : string;
  email_input : string;
  template_select : string;
  skills_input : string;
  url_input : string;
  recipient_email : string;
  dynamic_inputs : gmap string string;
  chatbot : list turn;
  msg : string;
  send_result : string
}.

Definition set_chatbot (h : list turn) (app : App) : App :=
  {| name_input := name_input app; email_input := email_input app;
     template_select := template_select app; skills_input := skills_input app;
     url_input := url_input app; recipient_email := recipient_email app;
     dynamic_inputs := dynamic_inputs app; chatbot := h; msg := msg app;
     send_result := send_result app |}.

Definition set_msg (m : string) (app : App) : App :=
  {| name_input := name_input app; email_input := email_input app;
     template_select := template_select app; skills_input := skills_input app;
     url_input := url_input app; recipient_email := recipient_email app;
     dynamic_inputs := dynamic_inputs app; chatbot := chatbot app; msg := m;
     send_result := send_result app |}.

Definition set_send_result (r : string) (app : App) : App :=
  {| name_input := name_input app; email_input := email_input app;
     template_select := template_select app; skills_input := skills_input app;
     url_input := url_input app; recipient_email := recipient_email app;
     dynamic_inputs := dynamic_inputs app; chatbot := chatbot app; msg := msg app;
     send_result := r |}.

(** Run a callback and store its result in the output component. *)
Definition wire {A} (callback : M A) (store : A -> App -> App) (app : App)
  : trace -> App * trace :=
  fun tr =>
    match callback tr with
    | (inr a, tr') => (store a app, tr')
    | (inl _, tr') => (app, tr')
    end.

(** [generate_button.click] *)
Definition on_generate (env : Env) (app : App) : trace -> App * trace :=
  wire (generate_email_action env (template_select app) (name_input app)
          (email_input app) (skills_input app) (url_input app) (dynamic_inputs app))
       set_chatbot app.

(** [msg.submit(user, ...).then(bot, ...)] *)
Definition on_submit (env : Env) (app : App) : trace -> App * trace :=
  let '(m, h) := user (msg app) (chatbot app) in
  let app1 := set_chatbot h (set_msg m app) in
  wire (bot env (chatbot app1)) set_chatbot app1.

(** [send_button.click] *)
Definition on_send (env : Env) (app : App) : trace -> App * trace :=
  wire (send_email_action env (name_input app) (email_input app)
          (recipient_email app) (chatbot app))
       set_send_result app.

(** [clear.click] *)
Definition on_clear (app : App) : App := set_chatbot [] app.

(** The draft a session currently shows: the reply of its last turn. *)
Definition latest_reply (h : list turn) : option string :=
  match getitem_neg h 1 with
  | inr (_, reply) => reply
  | inl _ => None
  end.

(** ** The form of additional fields and the two reply texts *)

(** [update_dynamic_inputs]: the dictionary offered in the box of
    additional fields when a template is selected, one empty entry for
    each required field that is not in the list of excluded names. *)
Definition update_dynamic_inputs (template_name : string) : gmap string string :=
  let required_fields := get_required_fields template_name in
  list_to_map
    (map (fun field => (field, EmptyString))
       (List.filter
          (fun field =>
             negb (existsb (String.eqb field)
                     ["sender_name"; "sender_email"; "recipient_email"]))
          required_fields)).

(** The dictionary [fields] that [generate_email_action] builds. *)
Definition ui_fields (name email skills url : string)
    (dynamic_inputs : gmap string string) : gmap string string :=
  dynamic_inputs ∪
  (<["sender_name" := name]>
   (<["sender_email" := email]>
    (<["relevant_skills" := skills]>
     (<["job_url" := url]> ∅)))).

(** The reply [generate_email_action] shows for a draft. *)
Definition generation_message (generated_email : string) : string :=
  "Here's your generated email:" +:+ blank_line +:+ generated_email +:+ blank_line
  +:+ "You can now edit this email by sending your edit requests.".

(** The reply [chat_function] returns for a revised draft. *)
Definition edit_message (edited_email : string) : string :=
  "Here's the updated version of your email based on your request:"
  +:+ blank_line +:+ edited_email +:+ blank_line
  +:+ "You can continue to edit this email by sending more edit requests.".

(** The two markers [send_email_action] searches for. *)
Definition start_marker : string := "Here's your generated email:".
Definition end_marker : string := blank_line +:+ "You can now edit this email".

(** The messages of an edit request. *)
Definition edit_messages (section full_context request : string) : list message :=
  [Message "system" "You are an AI assistant helping to refine an email.";
   Message "user" (edit_prompt section full_context request)].

(** A call that is a page fetch or a request to the language model. *)
Definition fetch_or_completion (ev : event) : Prop :=
  (exists url, ev = HttpGet url) \/ (exists msgs, ev = ChatCompletion model_id msgs).

(** ** Sessions and their transcript *)


(** The chat history of a session as the callbacks build it: the turn of
    the generated draft, which has no request, then one turn for each
    edit request that was answered, with the revised draft. *)
Definition session_of (draft : string) (revisions : list (string * string))
  : list turn :=
  (None, Some (generation_message draft))
  :: map (fun r => (Some r.1, Some (edit_message r.2))) revisions.



(** ** Concrete collaborators and inputs, for evaluating the program *)

Module Sample.

(** A language-model answer to the analysis prompt, in the format the
    prompt asks for. *)
Definition analysis_text : string :=
  "Required Skills: writing, editing" +:+ blank_line
  +:+ "Matching Skills: writing" +:+ blank_line
  +:+ "Growth Ideas:" +:+ Py.nl +:+ "1. a newsletter" +:+ Py.nl +:+ "2. a style guide"
  +:+ blank_line
  +:+ "Character/Storyline Improvement Suggestions:" +:+ Py.nl +:+ "1. a mentor arc".

Definition page : soup :=
  {| find_all_p := ["We are hiring."; "Apply today."];
     get_text := "Careers We are hiring. Apply today. Contact" |}.

(** Every collaborator answers.  The model answers the analysis prompt
    with [analysis_text], a one-message request with a first draft and
    a request with a system message with a revised draft. *)
Definition env_ok : Env := {|
  requests_get := fun _ _ => inr "<html><p>We are hiring.</p></html>";
  BeautifulSoup := fun _ => inr page;
  chat_completions_create := fun _ _ msgs =>
    inr (match msgs with
         | [m] => if Py.contains (content m) "Format the response as:"
                  then analysis_text
                  else "Dear Alex," +:+ blank_line +:+ "Widget saves time."
         | _ => "Dear Alex," +:+ blank_line +:+ "Widget saves you time."
         end);
  sheets_append := fun _ _ => inr tt;
  resend_send := fun _ _ => inr (Some "49a3999c")
|}.

(** The page cannot be fetched: [requests] reports a URL without a
    scheme, and its message quotes the URL. *)
Definition env_no_scheme : Env := {|
  requests_get := fun _ url =>
    inl (ExternalError ("Invalid URL '" +:+ url
                        +:+ "': No scheme supplied. Perhaps you meant https://"
                        +:+ url +:+ "?"));
  BeautifulSoup := BeautifulSoup env_ok;
  chat_completions_create := chat_completions_create env_ok;
  sheets_append := sheets_append env_ok;
  resend_send := resend_send env_ok
|}.

(** The page is fetched and the parser raises. *)
Definition env_bad_markup : Env := {|
  requests_get := requests_get env_ok;
  BeautifulSoup := fun _ => inl (ExternalError "malformed start tag");
  chat_completions_create := chat_completions_create env_ok;
  sheets_append := sheets_append env_ok;
  resend_send := resend_send env_ok
|}.

(** The delivery service refuses every message. *)
Definition env_no_delivery : Env := {|
  requests_get := requests_get env_ok;
  BeautifulSoup := BeautifulSoup env_ok;
  chat_completions_create := chat_completions_create env_ok;
  sheets_append := sheets_append env_ok;
  resend_send := fun _ _ => inl (ExternalError "connection reset by peer")
|}.

(** The spreadsheet service is out of quota. *)
Definition env_no_sheet : Env := {|
  requests_get := requests_get env_ok;
  BeautifulSoup := BeautifulSoup env_ok;
  chat_completions_create := chat_completions_create env_ok;
  sheets_append := fun _ _ => inl (ExternalError "quota exceeded");
  resend_send := resend_send env_ok
|}.

(** The delivery service refuses the messages for one recipient and
    accepts the others. *)
Definition env_refuses_alex : Env := {|
  requests_get := requests_get env_ok;
  BeautifulSoup := BeautifulSoup env_ok;
  chat_completions_create := chat_completions_create env_ok;
  sheets_append := sheets_append env_ok;
  resend_send := fun _ p =>
    if String.eqb (to p) "alex@acme.com"
    then inl (ExternalError "recipient address rejected")
    else inr (Some "49a3999c")
|}.

(** The model answers the analysis prompt with a single paragraph. *)
Definition env_short_analysis : Env := {|
  requests_get := requests_get env_ok;
  BeautifulSoup := BeautifulSoup env_ok;
  chat_completions_create := fun _ _ _ => inr "I cannot help with that.";
  sheets_append := sheets_append env_ok;
  resend_send := resend_send env_ok
|}.

Fixpoint repeat_char (c : ascii) (n : nat) : string :=
  match n with
  | O => EmptyString
  | S n' => String c (repeat_char c n')
  end.

(** A URL without a scheme, 6012 characters long. *)
Definition long_url : string := "example.com/" +:+ repeat_char "a" 6000.

(** What the context fetch makes of that exception. *)
Definition long_url_context : string :=
  "Error scraping website: Invalid URL '" +:+ long_url
  +:+ "': No scheme supplied. Perhaps you meant https://" +:+ long_url +:+ "?".

(** The fields of the sales pitch of the specification's scenario. *)
Definition sales_fields : gmap string string :=
  list_to_map
    [("recipient_name", "Alex"); ("reason_for_contact", "saw your launch");
     ("product_name", "Widget"); ("main_benefit", "save time");
     ("key_features", "fast, cheap"); ("customer_results", "2x growth");
     ("company_name", "Acme"); ("sender_name", "Sam");
     ("sender_position", "Rep"); ("sender_company", "WidgetCo")].

(** The same without the last two required fields. *)
Definition sales_fields_incomplete : gmap string string :=
  delete "sender_company" (delete "sender_position" sales_fields).

(** The fields of a job application as the generation callback builds
    them when the box of additional fields is empty. *)
Definition job_fields : gmap string string :=
  list_to_map
    [("sender_name", "Sam"); ("sender_email", "sam@widget.co");
     ("relevant_skills", "writing"); ("job_url", "https://acme.com/jobs")].

(** The same with a URL typed without its scheme. *)
Definition job_fields_no_scheme : gmap string string :=
  <["job_url" := "acme.com/jobs"]> job_fields.

(** Additional fields that complete a job application. *)
Definition job_inputs : gmap string string :=
  list_to_map
    [("hiring_manager_name", "Alex"); ("job_title", "Editor");
     ("company_name", "Acme"); ("applicant_name", "Sam")].

(** A session after one generation and one edit. *)
Definition two_turns : list turn :=
  [ (None,
     Some ("Here's your generated email:" +:+ blank_line
           +:+ "Dear Alex," +:+ blank_line +:+ "Widget saves time." +:+ blank_line
           +:+ "You can now edit this email by sending your edit requests."));
    (Some "address the reader directly",
     Some ("Here's the updated version of your email based on your request:"
           +:+ blank_line
           +:+ "Dear Alex," +:+ blank_line +:+ "Widget saves you time." +:+ blank_line
           +:+ "You can continue to edit this email by sending more edit requests.")) ].

(** An interface on which nothing was generated yet. *)
Definition app_fresh : App := {|
  name_input := "Sam"; email_input := "sam@widget.co";
  template_select := "sales_pitch"; skills_input := EmptyString;
  url_input := EmptyString; recipient_email := EmptyString;
  dynamic_inputs := sales_fields; chatbot := []; msg := "make it shorter";
  send_result := EmptyString
|}.

Definition app0 : App := {|
  name_input := "Sam"; email_input := "sam@widget.co";
  template_select := "sales_pitch"; skills_input := EmptyString;
  url_input := EmptyString; recipient_email := "alex@acme.com";
  dynamic_inputs := sales_fields; chatbot := two_turns; msg := EmptyString;
  send_result := EmptyString
|}.

End Sample.

(** * Properties *)

(** ** Strings *)

Lemma take_len n s : (Py.len (Py.take n s) <= n)%nat.
Proof.
  unfold Py.len. revert s.
  induction n as [|n IH]; intros [|c s]; simpl; try lia.
  specialize (IH s). lia.
Qed.

(** ** Context fetch *)

(** What [scrape_website] returns, by the answer of the collaborators. *)
Lemma scrape_website_eq env url tr :
  scrape_website env url tr =
  (inr match requests_get env tr url with
       | inl e => "Error scraping website: " +:+ str_exn e
       | inr body =>
           match BeautifulSoup env body with
           | inl e => "Error scraping website: " +:+ str_exn e
           | inr page =>
               let text := Py.join " " (find_all_p page) in
               Py.take context_limit
                 (if (Py.len text <? paragraph_threshold)%nat then get_text page else text)
           end
       end,
   tr ++ [HttpGet url]).
Proof.
  unfold scrape_website, try_except, bind, call, lift, ret.
  destruct (requests_get env tr url) as [e|body]; [reflexivity|].
  destruct (BeautifulSoup env body) as [e|page]; reflexivity.
Qed.

Lemma scrape_website_returns env url tr :
  exists text, scrape_website env url tr = (inr text, tr ++ [HttpGet url]).
Proof. rewrite scrape_website_eq. by eexists. Qed.

(** C7. For every URL and whatever the collaborators do, the context
    fetch returns a string and raises nothing; when the retrieval or
    the parse raises, the string is the marker [Error scraping website: ]
    followed by the text of the exception. *)
Theorem scrape_website_never_raises (env : Env) (url : string) (tr : trace) :
  exists text,
    scrape_website env url tr = (inr text, tr ++ [HttpGet url]) /\
    (forall e, requests_get env tr url = inl e ->
               text = "Error scraping website: " +:+ str_exn e) /\
    (forall body e, requests_get env tr url = inr body ->
                    BeautifulSoup env body = inl e ->
                    text = "Error scraping website: " +:+ str_exn e).
Proof.
  rewrite scrape_website_eq. eexists. split; [reflexivity|]. split.
  - intros e He. by rewrite He.
  - intros body e Hb He. by rewrite Hb, He.
Qed.

Lemma scrape_website_never_raises_witness :
  (scrape_website Sample.env_bad_markup "https://acme.com/jobs" []).1
  = inr "Error scraping website: malformed start tag".
Proof.
  destruct (scrape_website_never_raises Sample.env_bad_markup "https://acme.com/jobs" [])
    as (text & Hrun & _ & Hparse).
  rewrite Hrun. simpl. f_equal.
  exact (Hparse "<html><p>We are hiring.</p></html>" (ExternalError "malformed start tag")
           eq_refl eq_refl).
Defined.

(** C6, as the code has it. When the retrieval and the parse succeed,
    the context fetch returns at most 5000 characters: the first 5000
    of the whole document's text when the joined paragraph text is
    shorter than 1000 characters, and the first 5000 of the joined
    paragraph text otherwise. *)
Theorem scrape_website_success_bounded (env : Env) (url : string) (tr : trace)
    (body : string) (page : soup) :
  requests_get env tr url = inr body ->
  BeautifulSoup env body = inr page ->
  context_limit = 5000%nat /\ paragraph_threshold = 1000%nat /\
  exists text,
    returned (scrape_website env url tr) = Some text /\
    (Py.len text <= context_limit)%nat /\
    ((Py.len (Py.join " " (find_all_p page)) < paragraph_threshold)%nat ->
       text = Py.take context_limit (get_text page)) /\
    ((paragraph_threshold <= Py.len (Py.join " " (find_all_p page)))%nat ->
       text = Py.take context_limit (Py.join " " (find_all_p page))).
Proof.
  intros Hget Hparse. rewrite scrape_website_eq, Hget, Hparse.
  split; [reflexivity|]. split; [reflexivity|].
  eexists. split; [reflexivity|]. split; [apply take_len|]. cbv zeta. split.
  - intros Hlt. apply Nat.ltb_lt in Hlt. by rewrite Hlt.
  - intros Hge. apply Nat.ltb_ge in Hge. by rewrite Hge.
Qed.

Lemma scrape_website_success_bounded_witness :
  returned (scrape_website Sample.env_ok "https://acme.com/jobs" [])
  = Some "Careers We are hiring. Apply today. Contact".
Proof.
  destruct (scrape_website_success_bounded Sample.env_ok "https://acme.com/jobs" []
              "<html><p>We are hiring.</p></html>" Sample.page eq_refl eq_refl)
    as (_ & _ & text & Hret & _ & Hshort & _).
  rewrite Hret. f_equal. apply Hshort. apply Nat.ltb_lt. by vm_compute.
Defined.

(** C6 as stated fails on the error path: for a URL of 6012 characters
    without a scheme, the exception text quotes the URL and the string
    returned has 12111 characters. *)
Lemma scrape_website_error_exceeds_limit :
  (Py.len Sample.long_url = 6012)%nat /\
  scrape_website Sample.env_no_scheme Sample.long_url []
  = (inr Sample.long_url_context, [HttpGet Sample.long_url]) /\
  (Py.len Sample.long_url_context = 12111)%nat /\
  ~ (Py.len Sample.long_url_context <= context_limit)%nat.
Proof.
  split; [apply Nat.eqb_eq; vm_compute; reflexivity|].
  split; [rewrite scrape_website_eq; reflexivity|].
  split; [apply Nat.eqb_eq; vm_compute; reflexivity|].
  intros Hle. apply Nat.leb_le in Hle. vm_compute in Hle. discriminate.
Qed.

(** ** Delivery *)

Lemma send_email_eq env from_name from_email to_email subject content tr :
  send_email env from_name from_email to_email subject content tr =
  let p := send_params from_name from_email to_email subject content in
  (inr match resend_send env tr p with
       | inr (Some _) => true
       | _ => false
       end,
   tr ++ [ResendSend p]).
Proof.
  unfold send_email, try_except, bind, call, ret, raise. cbv zeta.
  by destruct (resend_send env tr _) as [e|[id|]].
Qed.

(** C10. Every send request is handed to the delivery service in one
    call whose sender is [<name> <onboarding@resend.dev>], whatever
    address the caller gave.  The caller's address is the reply-to
    address and stands once in the HTML body, in the footer, after the
    caller's name and between fixed pieces of text; the sender, the
    recipient and the subject are the same for every caller's address. *)
Theorem send_email_sender_is_fixed (env : Env)
    (from_name from_email to_email subj body : string) (tr : trace) :
  calls (send_email env from_name from_email to_email subj body tr)
  = tr ++ [ResendSend (send_params from_name from_email to_email subj body)] /\
  send_params from_name from_email to_email subj body
  = {| from_ := from_name +:+ " <onboarding@resend.dev>";
       to := to_email;
       subject := subj;
       html := html_head +:+ body +:+ html_footer_open +:+ from_name +:+ "<br>"
               +:+ from_email +:+ html_tail;
       reply_to := from_email |} /\
  (forall other_email : string,
     from_ (send_params from_name other_email to_email subj body)
     = from_ (send_params from_name from_email to_email subj body) /\
     to (send_params from_name other_email to_email subj body)
     = to (send_params from_name from_email to_email subj body) /\
     subject (send_params from_name other_email to_email subj body)
     = subject (send_params from_name from_email to_email subj body)) /\
  Py.contains html_footer_open
    ("<div class=" +:+ Py.dq +:+ "footer" +:+ Py.dq +:+ ">") = true.
Proof.
  rewrite send_email_eq. split; [done|]. split; [done|]. split; [done|].
  by vm_compute.
Qed.

Lemma send_email_action_failure env name email recipient h tr reply :
  latest_reply h = Some reply ->
  recipient <> EmptyString ->
  (exists e, resend_send env tr
       (send_params name email recipient "Professional Communication"
                    (extract_email_content reply)) = inl e) ->
  send_email_action env name email recipient h tr
  = (inr "Failed to send email. Please try again.",
     tr ++ [ResendSend (send_params name email recipient "Professional Communication"
                                    (extract_email_content reply))]).
Proof.
  intros Hlast Hrec [e He]. unfold send_email_action, latest_reply in *.
  destruct h as [|t h]; [done|].
  apply String.eqb_neq in Hrec. rewrite Hrec.
  destruct (getitem_neg (t :: h) 1) as [e'|[req [r|]]]; try done.
  injection Hlast as ->. unfold bind, lift.
  rewrite send_email_eq. cbv zeta. by rewrite He.
Qed.

(** C9. Every attempt to send for which the delivery service raises
    makes [send_email] return [False] and raise nothing, whatever the
    service does with other messages; the send callback then reports
    the failure in its own output box, and the chat history, with its
    latest reply, is what it was before. *)
Theorem delivery_failure_returns_false (env : Env) (app : App) (tr : trace) :
  (forall from_name from_email to_email subj body e,
     resend_send env tr (send_params from_name from_email to_email subj body) = inl e ->
     send_email env from_name from_email to_email subj body tr
     = (inr false,
        tr ++ [ResendSend (send_params from_name from_email to_email subj body)])) /\
  chatbot (on_send env app tr).1 = chatbot app /\
  latest_reply (chatbot (on_send env app tr).1) = latest_reply (chatbot app) /\
  (forall reply e,
     latest_reply (chatbot app) = Some reply ->
     recipient_email app <> EmptyString ->
     resend_send env tr
       (send_params (name_input app) (email_input app) (recipient_email app)
          "Professional Communication" (extract_email_content reply)) = inl e ->
     on_send env app tr
     = (set_send_result "Failed to send email. Please try again." app,
        tr ++ [ResendSend
                 (send_params (name_input app) (email_input app)
                    (recipient_email app) "Professional Communication"
                    (extract_email_content reply))])).
Proof.
  assert (Hsame : chatbot (on_send env app tr).1 = chatbot app).
  { unfold on_send, wire. by destruct (send_email_action _ _ _ _ _ _) as [[e|r] tr']. }
  split; [|split; [done|split; [by rewrite Hsame|]]].
  - intros fn fe te sj ct e He. rewrite send_email_eq. cbv zeta. by rewrite He.
  - intros reply e Hlast Hrec He. unfold on_send, wire.
    by rewrite (send_email_action_failure _ _ _ _ _ _ reply Hlast Hrec
                  (ex_intro _ e He)).
Qed.

Lemma delivery_failure_returns_false_witness :
  send_email Sample.env_refuses_alex "Sam" "sam@widget.co" "alex@acme.com"
    "Professional Communication" "Dear Alex" []
  = (inr false,
     [ResendSend (send_params "Sam" "sam@widget.co" "alex@acme.com"
                    "Professional Communication" "Dear Alex")]) /\
  send_email Sample.env_refuses_alex "Sam" "sam@widget.co" "kim@acme.com"
    "Professional Communication" "Dear Kim" []
  = (inr true,
     [ResendSend (send_params "Sam" "sam@widget.co" "kim@acme.com"
                    "Professional Communication" "Dear Kim")]) /\
  chatbot (on_send Sample.env_refuses_alex Sample.app0 []).1 = Sample.two_turns /\
  send_result (on_send Sample.env_refuses_alex Sample.app0 []).1
  = "Failed to send email. Please try again.".
Proof.
  destruct (delivery_failure_returns_false Sample.env_refuses_alex Sample.app0 [])
    as (Hsend & Hchat & _ & Hres).
  split; [|split; [|split]].
  - exact (Hsend "Sam" "sam@widget.co" "alex@acme.com" "Professional Communication"
             "Dear Alex" (ExternalError "recipient address rejected") eq_refl).
  - by vm_compute.
  - exact Hchat.
  - erewrite Hres; [reflexivity | by vm_compute | discriminate | reflexivity].
Defined.

(** ** The edit chat *)

Lemma getitem_neg_snoc {A} (l : list A) (x : A) : getitem_neg (l ++ [x]) 1 = inr x.
Proof.
  unfold getitem_neg, getitem. rewrite length_app. simpl.
  replace (length l + 1 - 1)%nat with (length l) by lia.
  rewrite list_lookup_middle by done.
  by destruct (length l + 1)%nat eqn:E; [lia|].
Qed.

Lemma take_snoc {A} (l : list A) (x : A) : take (length (l ++ [x]) - 1) (l ++ [x]) = l.
Proof.
  rewrite length_app. simpl.
  replace (length l + 1 - 1)%nat with (length l) by lia.
  by rewrite take_app_length.
Qed.

Lemma insert_snoc {A} (l : list A) (x y : A) :
  <[(length (l ++ [x]) - 1)%nat := y]> (l ++ [x]) = l ++ [y].
Proof.
  rewrite length_app. simpl.
  replace (length l + 1 - 1)%nat with (length l + 0)%nat by lia.
  by rewrite insert_app_r.
Qed.

(** One edit request: the request is appended with no reply, the reply
    is computed from the turns before it and stored in that turn. *)
Lemma edit_eq env request_text history tr :
  edit env request_text history tr =
  match chat_function env (Some request_text) history tr with
  | (inr bot_message, tr') =>
      (inr (history ++ [(Some request_text, Some bot_message)]), tr')
  | (inl e, tr') => (inl e, tr')
  end.
Proof.
  unfold edit, user, bot. simpl.
  rewrite getitem_neg_snoc, take_snoc. unfold bind, ret.
  destruct (chat_function _ _ _ _) as [[e|m] tr']; [done|].
  by rewrite insert_snoc.
Qed.

(** C5, as the code has it. An edit request on a history with no turn
    raises nothing and calls no collaborator: [chat_function] returns a
    fixed notice, and the chat callbacks store the request with that
    notice as the first turn. *)
Theorem edit_on_empty_session (env : Env) (message : option string)
    (request_text : string) (tr : trace) :
  chat_function env message [] tr
  = (inr "Please use the 'Generate Email' button to create your initial email.", tr) /\
  edit env request_text [] tr
  = (inr [(Some request_text,
           Some "Please use the 'Generate Email' button to create your initial email.")],
     tr).
Proof. split; [done|]. by rewrite edit_eq. Qed.

(** C5 as stated fails: on the empty history the edit raises no error,
    and afterwards the history holds one turn. *)
Lemma edit_on_empty_session_does_not_fail :
  raised (chat_function Sample.env_ok (Some "make it shorter") [] []) = None /\
  raised (edit Sample.env_ok "make it shorter" [] []) = None /\
  returned (edit Sample.env_ok "make it shorter" [] [])
  = Some [(Some "make it shorter",
           Some "Please use the 'Generate Email' button to create your initial email.")] /\
  length (chatbot (on_submit Sample.env_ok Sample.app_fresh []).1) = 1%nat /\
  calls (edit Sample.env_ok "make it shorter" [] []) = [].
Proof. by vm_compute. Qed.

(** The generation callback always hands the chat one turn, with no
    request: the draft, or the text of the exception that stopped the
    generation. *)
Lemma generate_email_action_one_turn env template_name name email skills url dyn tr :
  exists text,
    (generate_email_action env template_name name email skills url dyn tr).1
    = inr [(None, Some text)].
Proof.
  unfold generate_email_action, try_except, bind, ret. cbv zeta.
  destruct (generate_cold_email _ _ _ _) as [[e|draft] tr1]; [by eexists|].
  destruct (save_to_google_sheets _ _ _) as [[e|[]] tr2]; by eexists.
Qed.

(** A run of edit requests that all succeed appends one turn for each
    request, in the order of the requests. *)
Lemma edits_append env requests :
  forall history tr history' tr',
    edits env requests history tr = (inr history', tr') ->
    exists replies,
      length replies = length requests /\
      history' = history ++ zip (map Some requests) (map Some replies).
Proof.
  induction requests as [|r rs IH]; intros h tr h' tr' Hrun; simpl in Hrun.
  - injection Hrun as <- _. exists []. by rewrite app_nil_r.
  - unfold bind in Hrun. rewrite edit_eq in Hrun.
    destruct (chat_function _ _ _ _) as [[e|m] tr1]; [done|].
    destruct (IH _ _ _ _ Hrun) as (replies & Hlen & ->).
    exists (m :: replies). split; [simpl; lia|].
    by rewrite <- app_assoc.
Qed.

(** C8. A session started by the generation callback and extended by
    [N] edit requests that all succeed has [N + 1] turns; turn 0 is the
    turn of the generation and has no request, and turns 1 to [N] carry
    the [N] request texts in the order of the calls. *)
Theorem edits_turns_in_call_order (env : Env)
    (template_name name email skills url : string) (dyn : gmap string string)
    (requests : list string) (tr0 tr1 trN : trace) (h0 hN : list turn) :
  generate_email_action env template_name name email skills url dyn tr0 = (inr h0, tr1) ->
  edits env requests h0 tr1 = (inr hN, trN) ->
  length hN = (length requests + 1)%nat /\
  (exists text, hN !! 0%nat = Some (None, Some text)) /\
  take 1 hN = h0 /\
  map fst (drop 1 hN) = map Some requests.
Proof.
  intros Hgen Hrun.
  destruct (generate_email_action_one_turn env template_name name email skills url dyn tr0)
    as [text Htext].
  rewrite Hgen in Htext. simpl in Htext. injection Htext as ->.
  destruct (edits_append _ _ _ _ _ _ Hrun) as (replies & Hlen & ->).
  simpl. rewrite length_zip, !length_map, Hlen, Nat.min_id.
  split; [lia|]. split; [by eexists|]. split; [done|].
  rewrite drop_0. apply fst_zip. rewrite !length_map. lia.
Qed.

Lemma edits_turns_in_call_order_witness :
  exists h0 hN tr1 trN,
    generate_email_action Sample.env_ok "sales_pitch" "Sam" "sam@widget.co"
      EmptyString EmptyString Sample.sales_fields [] = (inr h0, tr1) /\
    edits Sample.env_ok ["make it shorter"; "add a postscript"] h0 tr1 = (inr hN, trN) /\
    length hN = 3%nat /\
    map fst hN = [None; Some "make it shorter"; Some "add a postscript"].
Proof.
  eexists _, _, _, _.
  split; [by vm_compute|]. split; [by vm_compute|].
  match goal with
  | |- length ?hN = _ /\ _ =>
      destruct (edits_turns_in_call_order Sample.env_ok "sales_pitch" "Sam"
                  "sam@widget.co" EmptyString EmptyString Sample.sales_fields
                  ["make it shorter"; "add a postscript"] [] _ _ _ hN
                  ltac:(by vm_compute) ltac:(by vm_compute))
        as (Hlen & _ & _ & _)
  end.
  split; [exact Hlen | by vm_compute].
Defined.

(** The prompt [chat_function] sends for a history with at least one
    turn: the slot for the latest version holds the last but one
    section of the reply of the FIRST turn, the history slot holds one
    line pair for every turn, in order, and the last slot holds the new
    request. *)
Lemma chat_function_prompt env message h0 rest tr reply section :
  h0.2 = Some reply ->
  getitem_neg (Py.split reply blank_line) 2 = inr section ->
  calls (chat_function env message (h0 :: rest) tr)
  = tr ++ [ChatCompletion model_id
             [Message "system" "You are an AI assistant helping to refine an email.";
              Message "user"
                (edit_prompt section
                   (Py.join Py.nl (map transcript_line (h0 :: rest)))
                   (Py.str_opt message))]].
Proof.
  intros Hreply Hsection. unfold chat_function, calls, bind, lift, completion, call, ret.
  rewrite Hreply, Hsection.
  by destruct (chat_completions_create env tr _ _) as [e|edited].
Qed.

(** At a session of two turns whose latest draft reads [Dear Alex,] and
    [Widget saves you time.], the prompt for the next edit request
    gives under the heading of the latest version [Widget saves time.],
    the last paragraph of the draft of turn 0; the latest draft stands
    in the prompt as a part of the edit history. *)
Example chat_function_latest_email_is_from_first_turn (env : Env) (tr : trace) :
  latest_reply Sample.two_turns
  = Some ("Here's the updated version of your email based on your request:"
          +:+ blank_line +:+ "Dear Alex," +:+ blank_line +:+ "Widget saves you time."
          +:+ blank_line
          +:+ "You can continue to edit this email by sending more edit requests.") /\
  calls (chat_function env (Some "add a postscript") Sample.two_turns tr)
  = tr ++ [ChatCompletion model_id
             [Message "system" "You are an AI assistant helping to refine an email.";
              Message "user"
                (edit_prompt "Widget saves time."
                   (Py.join Py.nl (map transcript_line Sample.two_turns))
                   "add a postscript")]].
Proof.
  split; [by vm_compute|].
  unfold Sample.two_turns at 1.
  erewrite chat_function_prompt; [reflexivity|reflexivity|by vm_compute].
Qed.

(** ** Template substitution *)

Lemma format_lookup_plain kwargs name :
  plain_name name = true ->
  format_lookup kwargs name =
  match kwargs !! name with
  | Some v => inr v
  | None => inl (KeyError name)
  end.
Proof.
  unfold plain_name, format_lookup. destruct name as [|c r]; [done|].
  by destruct (is_digit c || has_special (String c r)).
Qed.

(** Rendering a well-formed format string raises [KeyError] for the
    first field, in the order of the text, that the keyword arguments
    lack, and fills every field when none is lacking. *)
Lemma render_well_formed kwargs segs :
  well_formed segs = true ->
  render kwargs segs =
  match first_missing kwargs (fields_of segs) with
  | Some f => inl (KeyError f)
  | None => inr (fill kwargs segs)
  end.
Proof.
  induction segs as [|[c|name|msg] rest IH]; simpl; intros Hwf; try done.
  - rewrite IH by done. by destruct (first_missing _ _).
  - apply andb_prop in Hwf as [Hname Hrest].
    rewrite format_lookup_plain by done.
    destruct (kwargs !! name) as [v|]; [|done].
    rewrite IH by done. by destruct (first_missing _ _).
Qed.

Lemma first_missing_first_occurrences kwargs l :
  forall seen,
    (forall x, x ∈ seen -> is_Some (kwargs !! x)) ->
    first_missing kwargs (first_occurrences seen l) = first_missing kwargs l.
Proof.
  induction l as [|x rest IH]; intros seen Hseen; simpl; [done|].
  case_bool_decide as Hx.
  - destruct (Hseen x Hx) as [v ->]. by apply IH.
  - simpl. destruct (kwargs !! x) as [v|] eqn:Hv; [|done].
    apply IH. intros y [->|Hy]%elem_of_cons; [by eexists|by apply Hseen].
Qed.

(** What [first_missing] finds: a name that is lacking, every name
    before it being present. *)
Lemma first_missing_Some kwargs fields f :
  first_missing kwargs fields = Some f <->
  exists before after,
    fields = before ++ f :: after /\ kwargs !! f = None /\
    forall x, x ∈ before -> is_Some (kwargs !! x).
Proof.
  split.
  - revert f. induction fields as [|x rest IH]; intros f; simpl; [done|].
    destruct (kwargs !! x) as [v|] eqn:Hx.
    + intros (before & after & -> & Hf & Hbefore)%IH.
      exists (x :: before), after. split; [done|]. split; [done|].
      intros y [->|Hy]%elem_of_cons; [by eexists|by apply Hbefore].
    + intros [= <-]. exists [], rest. split; [done|]. split; [done|].
      intros y Hy. by apply elem_of_nil in Hy.
  - intros (before & after & -> & Hf & Hbefore).
    induction before as [|x before IH]; simpl; [by rewrite Hf|].
    destruct (Hbefore x) as [v ->]; [by left|].
    apply IH. intros y Hy. apply Hbefore. by right.
Qed.

Lemma first_missing_None kwargs fields :
  first_missing kwargs fields = None <-> forall x, x ∈ fields -> is_Some (kwargs !! x).
Proof.
  induction fields as [|x rest IH]; simpl.
  - split; [|done]. intros _ y Hy. by apply elem_of_nil in Hy.
  - destruct (kwargs !! x) as [v|] eqn:Hx.
    + rewrite IH. split.
      * intros H y [->|Hy]%elem_of_cons; [by eexists|by apply H].
      * intros H y Hy. apply H. by right.
    + split; [done|]. intros H. destruct (H x) as [v Hv]; [by left|]. congruence.
Qed.

(** The registry holds two templates. *)
Lemma get_template_cases template_name t :
  get_template template_name = Some t ->
  (template_name = "job_application" \/ template_name = "sales_pitch") /\
  In (template_name, t) templates.
Proof.
  unfold get_template, templates. cbn [assoc].
  destruct (String.eqb "job_application" template_name) eqn:E1.
  - apply String.eqb_eq in E1 as <-. intros [= <-]. split; [by left|]. by left.
  - destruct (String.eqb "sales_pitch" template_name) eqn:E2; [|discriminate].
    apply String.eqb_eq in E2 as <-. intros [= <-]. split; [by right|]. right. by left.
Qed.

(** In both templates the skeleton is well formed, and the list of
    required fields is the list of its placeholders in the order of
    their first appearance. *)
Lemma registry_templates_well_formed template_name t :
  get_template template_name = Some t ->
  well_formed (parse (template t)) = true /\
  first_occurrences [] (fields_of (parse (template t))) = required_fields t.
Proof.
  intros [_ Hin]%get_template_cases.
  destruct Hin as [[= <- <-]|[[= <- <-]|[]]]; split; by vm_compute.
Qed.

(** Substitution into a template of the registry. *)
Lemma format_registry_template template_name t kwargs :
  get_template template_name = Some t ->
  format (template t) kwargs =
  match first_missing kwargs (required_fields t) with
  | Some f => inl (KeyError f)
  | None => inr (fill kwargs (parse (template t)))
  end.
Proof.
  intros [Hwf Hfields]%registry_templates_well_formed.
  unfold format. rewrite render_well_formed by done.
  rewrite <- Hfields, first_missing_first_occurrences; [done|].
  intros x Hx. by apply elem_of_nil in Hx.
Qed.

Lemma customize_template_eq env template_name t kwargs tr :
  kwargs !! "self" = None ->
  kwargs !! "template_name" = None ->
  get_template template_name = Some t ->
  customize_template env template_name kwargs tr =
  match first_missing kwargs (required_fields t) with
  | Some f => (inl (KeyError f), tr)
  | None =>
      completion env [Message "user" (fill kwargs (parse (template t)))] tr
  end.
Proof.
  intros Hself Hname Ht. unfold customize_template, bind_keywords.
  rewrite Hself, Hname, Ht. unfold bind, lift.
  rewrite (format_registry_template _ _ _ Ht).
  by destruct (first_missing _ _).
Qed.

(** What composing does when a required field is lacking. *)
Lemma customize_template_lacking env template_name t kwargs tr :
  kwargs !! "self" = None ->
  kwargs !! "template_name" = None ->
  get_template template_name = Some t ->
  (exists f, f ∈ required_fields t /\ kwargs !! f = None) ->
  exists before f after,
    required_fields t = before ++ f :: after /\
    kwargs !! f = None /\
    (forall x, x ∈ before -> is_Some (kwargs !! x)) /\
    customize_template env template_name kwargs tr = (inl (KeyError f), tr).
Proof.
  intros Hself Hname Ht (g & Hg & Hmiss).
  rewrite (customize_template_eq _ _ _ _ _ Hself Hname Ht).
  destruct (first_missing kwargs (required_fields t)) as [f|] eqn:Hfirst.
  - apply first_missing_Some in Hfirst as (before & after & Heq & Hf & Hbefore).
    by exists before, f, after.
  - destruct (proj1 (first_missing_None _ _) Hfirst g Hg) as [v Hv]. congruence.
Qed.

(** C1, as the code has it. For every template of the registry and every
    field mapping that lacks one or more of its required fields (and has
    no field called [self] or [template_name], the names of the
    parameters of the method), composing the template raises [KeyError]
    before the language model is called; the error names one field, the
    first of the required fields, in the order of the registry, that the
    mapping lacks. *)
Theorem customize_template_names_first_missing (env : Env) (template_name : string)
    (t : EmailTemplate) (kwargs : gmap string string) (tr : trace) :
  kwargs !! "self" = None ->
  kwargs !! "template_name" = None ->
  get_template template_name = Some t ->
  (exists f, f ∈ required_fields t /\ kwargs !! f = None) ->
  exists before f after,
    required_fields t = before ++ f :: after /\
    kwargs !! f = None /\
    (forall x, x ∈ before -> is_Some (kwargs !! x)) /\
    customize_template env template_name kwargs tr = (inl (KeyError f), tr) /\
    str_exn (KeyError f) = "'" +:+ f +:+ "'".
Proof.
  intros Hself Hname Ht Hmiss.
  destruct (customize_template_lacking env _ _ kwargs tr Hself Hname Ht Hmiss)
    as (before & f & after & Hreq & Hf & Hbefore & Hrun).
  by exists before, f, after.
Qed.

Lemma customize_template_names_first_missing_witness :
  customize_template Sample.env_ok "sales_pitch" Sample.sales_fields_incomplete []
  = (inl (KeyError "sender_position"), []).
Proof.
  destruct (customize_template_names_first_missing Sample.env_ok "sales_pitch"
              {| name := "Sales Pitch"; template := sales_pitch_template;
                 required_fields :=
                   ["recipient_name"; "reason_for_contact"; "product_name";
                    "main_benefit"; "key_features"; "customer_results";
                    "company_name"; "sender_name"; "sender_position";
                    "sender_company"] |}
              Sample.sales_fields_incomplete [] eq_refl eq_refl eq_refl)
    as (before & f & after & Hreq & Hf & Hbefore & Hrun & _).
  - exists "sender_company". split; [|by vm_compute].
    simpl. repeat (first [by left | right]).
  - rewrite Hrun. f_equal. f_equal.
    assert (Hfirst : first_missing Sample.sales_fields_incomplete
                       (before ++ f :: after) = Some f).
    { apply first_missing_Some.
      exact (ex_intro _ before (ex_intro _ after (conj eq_refl (conj Hf Hbefore)))). }
    rewrite <- Hreq in Hfirst. vm_compute in Hfirst. congruence.
Defined.

(** C1 as stated fails: with the two required fields [sender_position]
    and [sender_company] lacking, the error raised is
    [KeyError('sender_position')]; its text does not name
    [sender_company]. *)
Lemma customize_template_names_one_field_only :
  Sample.sales_fields_incomplete !! "sender_position" = None /\
  Sample.sales_fields_incomplete !! "sender_company" = None /\
  In "sender_company" (get_required_fields "sales_pitch") /\
  raised (customize_template Sample.env_ok "sales_pitch"
            Sample.sales_fields_incomplete [])
  = Some (KeyError "sender_position") /\
  str_exn (KeyError "sender_position") = "'sender_position'" /\
  Py.contains (str_exn (KeyError "sender_position")) "sender_company" = false.
Proof.
  split; [by vm_compute|]. split; [by vm_compute|].
  split; [vm_compute; tauto|].
  repeat split; vm_compute; reflexivity.
Qed.

(** ** Generation *)

Lemma customize_template_calls env template_name kwargs tr :
  exists rest, calls (customize_template env template_name kwargs tr) = tr ++ rest.
Proof.
  unfold customize_template, calls, bind, lift, completion, call, raise.
  destruct (bind_keywords _ _ _) as [e|[]]; [exists []; by rewrite app_nil_r|].
  destruct (get_template template_name) as [t|]; [|exists []; by rewrite app_nil_r].
  destruct (format (template t) kwargs) as [e|prompt].
  - exists []. by rewrite app_nil_r.
  - destruct (chat_completions_create env tr _ _); by eexists.
Qed.

(** Composing fails with no call made when the template is unknown or a
    required field is lacking. *)
Lemma customize_template_fails_early env template_name kwargs tr :
  (get_template template_name = None \/
   exists t f, get_template template_name = Some t /\
               f ∈ required_fields t /\ kwargs !! f = None) ->
  exists e, customize_template env template_name kwargs tr = (inl e, tr).
Proof.
  intros Hfail. unfold customize_template, bind, lift, raise.
  destruct (bind_keywords _ _ _) as [e|[]]; [by eexists|].
  destruct Hfail as [->|(t & f & Ht & Hf & Hmiss)]; [by eexists|].
  rewrite Ht, (format_registry_template _ _ _ Ht).
  destruct (first_missing kwargs (required_fields t)) as [g|] eqn:Hfirst; [by eexists|].
  destruct (proj1 (first_missing_None _ _) Hfirst f Hf) as [v Hv]. congruence.
Qed.

(** For a job application the page is fetched and the analysis is asked
    of the language model before the template is looked up or filled. *)
Lemma generate_cold_email_grounded env kwargs tr :
  kwargs !! "template_name" = None ->
  exists website_context rest,
    scrape_website env (dict_get kwargs "job_url") tr
    = (inr website_context, tr ++ [HttpGet (dict_get kwargs "job_url")]) /\
    calls (generate_cold_email env "job_application" kwargs tr)
    = tr ++ [HttpGet (dict_get kwargs "job_url");
             ChatCompletion model_id
               [Message "user"
                  (analysis_prompt website_context (dict_get kwargs "relevant_skills"))]]
         ++ rest.
Proof.
  intros Hname.
  destruct (scrape_website_returns env (dict_get kwargs "job_url") tr) as [ctx Hctx].
  exists ctx. unfold generate_cold_email, bind_keywords. rewrite Hname.
  unfold bind at 1, lift. rewrite String.eqb_refl. cbv zeta.
  unfold bind at 1. rewrite Hctx.
  unfold bind at 1. unfold completion at 1, call.
  destruct (chat_completions_create env _ _ _) as [e|analysis_result].
  { exists []. split; [reflexivity|]. unfold calls. simpl. by rewrite <- app_assoc. }
  unfold bind at 1.
  destruct (analysis_update analysis_result kwargs) as [e|kwargs'].
  { exists []. split; [reflexivity|]. unfold calls. simpl. by rewrite <- app_assoc. }
  match goal with
  | |- context [customize_template env ?n ?k ?t] =>
      destruct (customize_template_calls env n k t) as [rest ->]
  end.
  exists rest. split; [reflexivity|]. by rewrite <- !app_assoc.
Qed.

(** C3, as the code has it. For every template other than
    [job_application], an unknown template name and a lacking required
    field are raised with no call made to any collaborator.  For
    [job_application] the page fetch and the analysis request to the
    language model come first, whatever the other fields are. *)
Theorem generate_cold_email_fail_fast_unless_grounded (env : Env)
    (template_name : string) (kwargs : gmap string string) (tr : trace) :
  (template_name <> "job_application" ->
   (get_template template_name = None \/
    exists t f, get_template template_name = Some t /\
                f ∈ required_fields t /\ kwargs !! f = None) ->
   exists e, generate_cold_email env template_name kwargs tr = (inl e, tr)) /\
  (template_name = "job_application" ->
   kwargs !! "template_name" = None ->
   exists website_context rest,
     scrape_website env (dict_get kwargs "job_url") tr
     = (inr website_context, tr ++ [HttpGet (dict_get kwargs "job_url")]) /\
     calls (generate_cold_email env template_name kwargs tr)
     = tr ++ [HttpGet (dict_get kwargs "job_url");
              ChatCompletion model_id
                [Message "user"
                   (analysis_prompt website_context
                      (dict_get kwargs "relevant_skills"))]]
          ++ rest).
Proof.
  split.
  - intros Hname Hfail. apply String.eqb_neq in Hname.
    unfold generate_cold_email. unfold bind at 1, lift.
    destruct (bind_keywords _ _ _) as [e|[]]; [by eexists|].
    rewrite Hname. by apply customize_template_fails_early.
  - intros -> Hname. by apply generate_cold_email_grounded.
Qed.

Lemma generate_cold_email_fail_fast_unless_grounded_witness :
  calls (generate_cold_email Sample.env_ok "newsletter" Sample.sales_fields []) = [] /\
  calls (generate_cold_email Sample.env_ok "sales_pitch"
           Sample.sales_fields_incomplete []) = [] /\
  exists rest,
    calls (generate_cold_email Sample.env_ok "job_application" Sample.job_fields [])
    = HttpGet "https://acme.com/jobs" :: rest.
Proof.
  split; [|split].
  - destruct (generate_cold_email_fail_fast_unless_grounded Sample.env_ok "newsletter"
                Sample.sales_fields []) as [Hfast _].
    destruct (Hfast ltac:(discriminate) (or_introl eq_refl)) as [e ->].
    reflexivity.
  - destruct (generate_cold_email_fail_fast_unless_grounded Sample.env_ok "sales_pitch"
                Sample.sales_fields_incomplete []) as [Hfast _].
    destruct (Hfast ltac:(discriminate)) as [e ->]; [|reflexivity].
    right. eexists _, "sender_company". split; [reflexivity|].
    split; [|by vm_compute]. simpl. repeat (first [by left | right]).
  - destruct (generate_cold_email_fail_fast_unless_grounded Sample.env_ok
                "job_application" Sample.job_fields []) as [_ Hgrounded].
    destruct (Hgrounded eq_refl eq_refl) as (ctx & rest & _ & ->).
    eexists. reflexivity.
Defined.

(** C3 as stated fails: a job application that lacks the required field
    [hiring_manager_name] is rejected only after the page was fetched
    and the language model was asked for the analysis. *)
Lemma generate_cold_email_calls_before_validation :
  In "hiring_manager_name" (get_required_fields "job_application") /\
  Sample.job_fields !! "hiring_manager_name" = None /\
  generate_cold_email Sample.env_ok "job_application" Sample.job_fields []
  = (inl (KeyError "hiring_manager_name"),
     [HttpGet "https://acme.com/jobs";
      ChatCompletion model_id
        [Message "user"
           (analysis_prompt "Careers We are hiring. Apply today. Contact" "writing")]]).
Proof.
  split; [vm_compute; tauto|]. split; [by vm_compute|].
  vm_compute. reflexivity.
Qed.

(** ** Parsing the analysis *)

Lemma getitem_neg_last {A} (l : list A) :
  getitem_neg l 1 = match last l with
                    | Some x => inr x
                    | None => inl list_index_out_of_range
                    end.
Proof.
  unfold getitem_neg, getitem. rewrite last_lookup.
  destruct l as [|x l]; [done|]. simpl. by rewrite Nat.sub_0_r.
Qed.

(** The parse raises exactly when the answer has fewer than three
    sections. *)
Lemma analysis_update_raises_iff analysis_result kwargs :
  analysis_update analysis_result kwargs = inl list_index_out_of_range <->
  (length (Py.split analysis_result blank_line) < 3)%nat.
Proof.
  unfold analysis_update, key_achievements_of, reason_for_interest_of, getitem.
  rewrite getitem_neg_last.
  destruct (Py.split analysis_result blank_line !! 2%nat) as [third|] eqn:H2.
  - apply lookup_lt_Some in H2.
    destruct (last _) as [x|] eqn:Hlast; [split; [done|lia]|].
    apply last_None in Hlast. rewrite Hlast in H2. simpl in H2. lia.
  - apply lookup_ge_None in H2. split; [lia|done].
Qed.

(** C4, as the code has it. For every analysis answer with at least
    three sections separated by blank lines, the parse raises nothing:
    [experience_summary] is the whole answer, [key_achievements] is the
    third section without its first line, each remaining line after a
    dash, and [reason_for_interest] is the last section. *)
Theorem analysis_update_three_sections (analysis_result : string)
    (kwargs : gmap string string) :
  (3 <= length (Py.split analysis_result blank_line))%nat ->
  exists third last_section kwargs',
    Py.split analysis_result blank_line !! 2%nat = Some third /\
    last (Py.split analysis_result blank_line) = Some last_section /\
    analysis_update analysis_result kwargs = inr kwargs' /\
    kwargs' !! "experience_summary" = Some analysis_result /\
    kwargs' !! "key_achievements"
    = Some ("- " +:+ Py.join (Py.nl +:+ "- ") (drop 1 (Py.split third Py.nl))) /\
    kwargs' !! "reason_for_interest" = Some last_section /\
    (forall k, k <> "experience_summary" -> k <> "key_achievements" ->
               k <> "reason_for_interest" -> kwargs' !! k = kwargs !! k).
Proof.
  intros Hlen.
  unfold analysis_update, key_achievements_of, reason_for_interest_of, getitem.
  rewrite getitem_neg_last.
  destruct (Py.split analysis_result blank_line !! 2%nat) as [third|] eqn:H2;
    [|apply lookup_ge_None in H2; lia].
  destruct (last _) as [x|] eqn:Hlast;
    [|apply last_None in Hlast; rewrite Hlast in Hlen; simpl in Hlen; lia].
  exists third, x. eexists. repeat split.
  - rewrite lookup_insert_ne by done. rewrite lookup_insert_ne by done.
    by rewrite lookup_insert_eq.
  - rewrite lookup_insert_ne by done. by rewrite lookup_insert_eq.
  - by rewrite lookup_insert_eq.
  - intros k H1 H2' H3. by rewrite !lookup_insert_ne.
Qed.

Lemma analysis_update_three_sections_witness :
  exists kwargs',
    analysis_update Sample.analysis_text Sample.job_fields = inr kwargs' /\
    kwargs' !! "key_achievements"
    = Some ("- 1. a newsletter" +:+ Py.nl +:+ "- 2. a style guide") /\
    kwargs' !! "reason_for_interest"
    = Some ("Character/Storyline Improvement Suggestions:" +:+ Py.nl
            +:+ "1. a mentor arc").
Proof.
  destruct (analysis_update_three_sections Sample.analysis_text Sample.job_fields)
    as (third & last_section & kwargs' & H2 & Hlast & Hrun & _ & Hkey & Hreason & _).
  - apply Nat.leb_le. by vm_compute.
  - exists kwargs'. split; [exact Hrun|].
    vm_compute in H2. injection H2 as <-.
    vm_compute in Hlast. injection Hlast as <-.
    split; [rewrite Hkey | rewrite Hreason]; by vm_compute.
Defined.

(** C4 as stated fails: an answer of one or two sections makes the
    parse raise [IndexError], the generation raises it in turn, and the
    generation callback shows its text in place of a draft. *)
Lemma analysis_update_fewer_sections_raises :
  Py.split "I cannot help with that." blank_line = ["I cannot help with that."] /\
  analysis_update "I cannot help with that." Sample.job_fields
  = inl (IndexError "list index out of range") /\
  analysis_update ("Required Skills: none" +:+ blank_line +:+ "Matching Skills: none")
    Sample.job_fields
  = inl (IndexError "list index out of range") /\
  raised (generate_cold_email Sample.env_short_analysis "job_application"
            (Sample.job_inputs ∪ Sample.job_fields) [])
  = Some (IndexError "list index out of range") /\
  returned (generate_email_action Sample.env_short_analysis "job_application" "Sam"
              "sam@widget.co" "writing" "https://acme.com/jobs" Sample.job_inputs [])
  = Some [(None, Some "Error generating email: list index out of range")].
Proof. repeat split; vm_compute; reflexivity. Qed.

(** * Further properties of the program *)

(** ** The registry and the form of additional fields *)

Lemma elem_of_first_occurrences f l :
  forall seen, f ∈ first_occurrences seen l <-> f ∈ l /\ f ∉ seen.
Proof.
  induction l as [|x rest IH]; intros seen; simpl.
  - split; [by intros ?%elem_of_nil | by intros [?%elem_of_nil _]].
  - case_bool_decide as Hx.
    + rewrite IH, elem_of_cons. split; [tauto|].
      intros [[->|Hin] Hseen]; [done|by split].
    + rewrite elem_of_cons, IH, !elem_of_cons.
      destruct (decide (f = x)) as [->|Hne]; tauto.
Qed.

(** The text a well-formed skeleton is filled with depends on the
    values of its placeholders only. *)
Lemma fill_ext kwargs kwargs' segs :
  (forall f, f ∈ fields_of segs -> kwargs' !! f = kwargs !! f) ->
  fill kwargs' segs = fill kwargs segs.
Proof.
  induction segs as [|[c|name|msg] rest IH]; simpl; intros Hsame; [done|..].
  - by rewrite IH.
  - rewrite (Hsame name) by (by left). rewrite IH; [done|].
    intros f Hf. apply Hsame. by right.
  - by apply IH.
Qed.

(** X1. In every template of the registry the skeleton is a well-formed
    format string, and the required fields are its placeholders: none
    is listed twice, each stands in the skeleton, and the skeleton has
    no other. *)
Theorem registry_required_fields_are_placeholders (template_name : string)
    (t : EmailTemplate) :
  get_template template_name = Some t ->
  well_formed (parse (template t)) = true /\
  NoDup (required_fields t) /\
  required_fields t <> [] /\
  (forall f, f ∈ required_fields t <-> f ∈ fields_of (parse (template t))).
Proof.
  intros Ht. destruct (registry_templates_well_formed _ _ Ht) as [Hwf Hfields].
  split; [done|]. split; [|split].
  - destruct (get_template_cases _ _ Ht) as [_ Hin].
    destruct Hin as [[= <- <-]|[[= <- <-]|[]]];
      apply (bool_decide_unpack _); by vm_compute.
  - destruct (get_template_cases _ _ Ht) as [_ Hin].
    by destruct Hin as [[= <- <-]|[[= <- <-]|[]]].
  - intros f. rewrite <- Hfields, elem_of_first_occurrences.
    split; [by intros [? _]|]. intros Hf. split; [done|]. by intros ?%elem_of_nil.
Qed.

Lemma registry_required_fields_are_placeholders_witness :
  "company_name" ∈ fields_of (parse job_application_template).
Proof.
  destruct (registry_required_fields_are_placeholders "job_application" _ eq_refl)
    as (_ & _ & _ & Hiff).
  apply Hiff. simpl. repeat (first [by left | right]).
Defined.

(** X2. [get_required_fields] answers the empty list exactly for the
    names that are no key of the registry; the keys are the names
    [get_template_names] lists. *)
Theorem get_required_fields_empty_iff_unknown (template_name : string) :
  (get_required_fields template_name = [] <-> get_template template_name = None) /\
  (get_template template_name = None <-> template_name ∉ get_template_names).
Proof.
  unfold get_required_fields. split.
  - destruct (get_template template_name) as [t|] eqn:Ht; [|done].
    destruct (get_template_cases _ _ Ht) as [_ Hin].
    by destruct Hin as [[= <- <-]|[[= <- <-]|[]]].
  - destruct (get_template template_name) as [t|] eqn:Ht.
    + destruct (get_template_cases _ _ Ht) as [Hname _].
      split; [done|]. intros Hnot. exfalso. apply Hnot.
      destruct Hname as [-> | ->]; simpl; [by left|by right; left].
    + split; [|done]. intros _ Hin. simpl in Hin.
      apply elem_of_cons in Hin as [->|Hin]; [done|].
      apply elem_of_cons in Hin as [->|Hin]; [done|].
      by apply elem_of_nil in Hin.
Qed.

(** X3. For every template of the registry, a box of additional fields
    that keeps every key [update_dynamic_inputs] offered, whatever else
    it holds, gives [generate_email_action] a value for every required
    field: the substitution into the skeleton raises nothing. *)
Theorem update_dynamic_inputs_form_suffices (template_name : string)
    (t : EmailTemplate) (name email skills url : string) (dyn : gmap string string) :
  get_template template_name = Some t ->
  (forall k, is_Some (update_dynamic_inputs template_name !! k) -> is_Some (dyn !! k)) ->
  (forall f, f ∈ required_fields t ->
             is_Some (ui_fields name email skills url dyn !! f)) /\
  format (template t) (ui_fields name email skills url dyn)
  = inr (fill (ui_fields name email skills url dyn) (parse (template t))).
Proof.
  intros Ht Hdyn.
  assert (Hall : forall f, f ∈ required_fields t ->
                           is_Some (ui_fields name email skills url dyn !! f)).
  { destruct (get_template_cases _ _ Ht) as [_ Hin].
    destruct Hin as [[= <- <-]|[[= <- <-]|[]]]; intros f Hf; simpl in Hf;
      repeat (apply elem_of_cons in Hf as [->|Hf]);
      try (by apply elem_of_nil in Hf);
      unfold ui_fields; apply lookup_union_is_Some;
      first [ left; apply Hdyn; vm_compute; by eexists
            | right; rewrite ?lookup_insert_ne by done;
              rewrite lookup_insert_eq; by eexists ]. }
  split; [done|].
  rewrite (format_registry_template _ _ _ Ht).
  by rewrite (proj2 (first_missing_None _ _) Hall).
Qed.

Lemma update_dynamic_inputs_form_suffices_witness :
  format sales_pitch_template
    (ui_fields "Sam" "sam@widget.co" EmptyString EmptyString
       (update_dynamic_inputs "sales_pitch"))
  = inr (fill (ui_fields "Sam" "sam@widget.co" EmptyString EmptyString
                 (update_dynamic_inputs "sales_pitch"))
           (parse sales_pitch_template)).
Proof.
  exact (proj2 (update_dynamic_inputs_form_suffices "sales_pitch" _ "Sam"
                  "sam@widget.co" EmptyString EmptyString
                  (update_dynamic_inputs "sales_pitch") eq_refl (fun k H => H))).
Defined.

(** X4. When the field mapping has a value for every required field of
    a known template (and no field called [self] or [template_name]),
    composing makes one call, a completion whose only message is the
    filled skeleton, and returns the model's answer or raises the
    model's exception; the fields that are not required have no part in
    the prompt. *)
Theorem customize_template_complete_fields (env : Env) (template_name : string)
    (t : EmailTemplate) (kwargs : gmap string string) (tr : trace) :
  kwargs !! "self" = None ->
  kwargs !! "template_name" = None ->
  get_template template_name = Some t ->
  (forall f, f ∈ required_fields t -> is_Some (kwargs !! f)) ->
  customize_template env template_name kwargs tr
  = (chat_completions_create env tr model_id
       [Message "user" (fill kwargs (parse (template t)))],
     tr ++ [ChatCompletion model_id
              [Message "user" (fill kwargs (parse (template t)))]]) /\
  (forall kwargs' : gmap string string,
     (forall f, f ∈ required_fields t -> kwargs' !! f = kwargs !! f) ->
     fill kwargs' (parse (template t)) = fill kwargs (parse (template t))).
Proof.
  intros Hself Hname Ht Hall. split.
  - rewrite (customize_template_eq _ _ _ _ _ Hself Hname Ht).
    by rewrite (proj2 (first_missing_None _ _) Hall).
  - intros kwargs' Hsame. apply fill_ext. intros f Hf. apply Hsame.
    destruct (registry_templates_well_formed _ _ Ht) as [_ Hfields].
    rewrite <- Hfields. apply elem_of_first_occurrences.
    split; [done|]. by intros ?%elem_of_nil.
Qed.

Lemma customize_template_complete_fields_witness :
  calls (customize_template Sample.env_ok "sales_pitch" Sample.sales_fields [])
  = [ChatCompletion model_id
       [Message "user" (fill Sample.sales_fields (parse sales_pitch_template))]].
Proof.
  destruct (customize_template_complete_fields Sample.env_ok "sales_pitch" _
              Sample.sales_fields [] eq_refl eq_refl eq_refl) as [-> _];
    [|reflexivity].
  intros f Hf. simpl in Hf.
  repeat (apply elem_of_cons in Hf as [->|Hf]); try (by apply elem_of_nil in Hf);
    vm_compute; by eexists.
Defined.

(** ** Generation, call by call *)

Lemma customize_template_calls_at_most_one env template_name kwargs tr :
  exists rest,
    calls (customize_template env template_name kwargs tr) = tr ++ rest /\
    (length rest <= 1)%nat /\
    forall ev, ev ∈ rest -> exists msgs, ev = ChatCompletion model_id msgs.
Proof.
  assert (Hnone : exists rest : trace,
             tr = tr ++ rest /\ (length rest <= 1)%nat /\
             forall ev, ev ∈ rest -> exists msgs, ev = ChatCompletion model_id msgs).
  { exists []. rewrite app_nil_r. split; [done|]. split; [simpl; lia|].
    by intros ev ?%elem_of_nil. }
  unfold customize_template, calls, bind, lift, completion, call, raise.
  destruct (bind_keywords _ _ _) as [e|[]]; [exact Hnone|].
  destruct (get_template template_name) as [t|]; [|exact Hnone].
  destruct (format (template t) kwargs) as [e|prompt]; [exact Hnone|].
  eexists [_]. split; [by destruct (chat_completions_create env tr _ _)|].
  split; [simpl; lia|].
  intros ev [->|?%elem_of_nil]%elem_of_cons; [by eexists|done].
Qed.

Lemma analysis_update_eq analysis_result kwargs :
  analysis_update analysis_result kwargs =
  match Py.split analysis_result blank_line !! 2%nat,
        last (Py.split analysis_result blank_line) with
  | Some third, Some last_section =>
      inr (<["reason_for_interest" := last_section]>
           (<["key_achievements" :=
                "- " +:+ Py.join (Py.nl +:+ "- ") (drop 1 (Py.split third Py.nl))]>
            (<["experience_summary" := analysis_result]> kwargs)))
  | _, _ => inl list_index_out_of_range
  end.
Proof.
  unfold analysis_update, key_achievements_of, reason_for_interest_of, getitem.
  rewrite getitem_neg_last.
  destruct (Py.split analysis_result blank_line !! 2%nat) as [third|]; [|done].
  by destruct (last _).
Qed.

Lemma analysis_update_insert analysis_result kwargs k v :
  k ∈ ["experience_summary"; "key_achievements"; "reason_for_interest"] ->
  analysis_update analysis_result (<[k := v]> kwargs)
  = analysis_update analysis_result kwargs.
Proof.
  intros Hk. rewrite !analysis_update_eq.
  destruct (Py.split analysis_result blank_line !! 2%nat) as [third|]; [|done].
  destruct (last _) as [last_section|]; [|done].
  f_equal. apply map_eq. intros i. rewrite !lookup_insert.
  repeat (apply elem_of_cons in Hk as [->|Hk]); try (by apply elem_of_nil in Hk);
    repeat case_decide; by simplify_eq.
Qed.

(** X5. For every template name other than [job_application] the
    generation fetches no page: it makes at most one call, and that
    call is a completion request. *)
Theorem generate_cold_email_other_templates_fetch_nothing (env : Env)
    (template_name : string) (kwargs : gmap string string) (tr : trace) :
  template_name <> "job_application" ->
  exists rest,
    calls (generate_cold_email env template_name kwargs tr) = tr ++ rest /\
    (length rest <= 1)%nat /\
    forall ev, ev ∈ rest -> exists msgs, ev = ChatCompletion model_id msgs.
Proof.
  intros Hname. apply String.eqb_neq in Hname.
  unfold generate_cold_email. unfold bind at 1, lift.
  destruct (bind_keywords _ _ _) as [e|[]].
  - exists []. rewrite app_nil_r. split; [done|]. split; [simpl; lia|].
    by intros ev ?%elem_of_nil.
  - rewrite Hname. apply customize_template_calls_at_most_one.
Qed.

Lemma generate_cold_email_other_templates_fetch_nothing_witness :
  exists rest,
    calls (generate_cold_email Sample.env_ok "sales_pitch" Sample.sales_fields [])
    = rest /\ (length rest <= 1)%nat.
Proof.
  destruct (generate_cold_email_other_templates_fetch_nothing Sample.env_ok
              "sales_pitch" Sample.sales_fields [] ltac:(discriminate))
    as (rest & Hcalls & Hlen & _).
  exists rest. split; [exact Hcalls | exact Hlen].
Defined.

(** X6. When the page of a job application cannot be retrieved, the
    generation goes on: the text of the exception, after the marker
    [Error scraping website: ], is what the analysis prompt shows the
    language model as the content of the page. *)
Theorem generate_cold_email_degraded_context (env : Env)
    (kwargs : gmap string string) (tr : trace) (e : exn) :
  kwargs !! "template_name" = None ->
  requests_get env tr (dict_get kwargs "job_url") = inl e ->
  exists rest,
    calls (generate_cold_email env "job_application" kwargs tr)
    = tr ++ [HttpGet (dict_get kwargs "job_url");
             ChatCompletion model_id
               [Message "user"
                  (analysis_prompt ("Error scraping website: " +:+ str_exn e)
                     (dict_get kwargs "relevant_skills"))]]
         ++ rest.
Proof.
  intros Hname Hget.
  destruct (generate_cold_email_grounded env kwargs tr Hname)
    as (ctx & rest & Hctx & Hcalls).
  rewrite scrape_website_eq, Hget in Hctx. injection Hctx as <-.
  by exists rest.
Qed.

Lemma generate_cold_email_degraded_context_witness :
  exists rest,
    calls (generate_cold_email Sample.env_no_scheme "job_application"
             Sample.job_fields_no_scheme [])
    = [HttpGet "acme.com/jobs";
       ChatCompletion model_id
         [Message "user"
            (analysis_prompt
               ("Error scraping website: "
                +:+ "Invalid URL 'acme.com/jobs': No scheme supplied. "
                +:+ "Perhaps you meant https://acme.com/jobs?")
               "writing")]] ++ rest.
Proof.
  exact (generate_cold_email_degraded_context Sample.env_no_scheme
           Sample.job_fields_no_scheme [] _ eq_refl eq_refl).
Defined.

Lemma generate_cold_email_calls_kinds env template_name kwargs tr :
  exists rest,
    calls (generate_cold_email env template_name kwargs tr) = tr ++ rest /\
    forall ev, ev ∈ rest -> fetch_or_completion ev.
Proof.
  unfold generate_cold_email. unfold bind at 1, lift.
  destruct (bind_keywords _ _ _) as [e|[]].
  { exists []. rewrite app_nil_r. split; [done|]. by intros ev ?%elem_of_nil. }
  destruct (String.eqb template_name "job_application").
  - cbv zeta. unfold bind at 1.
    destruct (scrape_website_returns env (dict_get kwargs "job_url") tr) as [ctx ->].
    unfold bind at 1. unfold completion at 1, call.
    assert (Htwo : forall ev : event,
              ev ∈ [HttpGet (dict_get kwargs "job_url");
                    ChatCompletion model_id
                      [Message "user"
                         (analysis_prompt ctx (dict_get kwargs "relevant_skills"))]] ->
              fetch_or_completion ev).
    { intros ev [->|[->|?%elem_of_nil]%elem_of_cons]%elem_of_cons;
        [left|right|done]; by eexists. }
    destruct (chat_completions_create env _ _ _) as [e|analysis_result].
    { eexists. split; [|exact Htwo]. unfold calls. simpl. by rewrite <- app_assoc. }
    unfold bind at 1.
    destruct (analysis_update analysis_result kwargs) as [e|kwargs'].
    { eexists. split; [|exact Htwo]. unfold calls. simpl. by rewrite <- app_assoc. }
    match goal with
    | |- context [customize_template env ?n ?k ?t] =>
        destruct (customize_template_calls_at_most_one env n k t)
          as (rest & -> & _ & Hrest)
    end.
    eexists (_ :: _ :: rest). split; [by rewrite <- !app_assoc|].
    intros ev [->|[->|Hev]%elem_of_cons]%elem_of_cons.
    + left. by eexists.
    + right. by eexists.
    + right. by apply Hrest.
  - destruct (customize_template_calls_at_most_one env template_name kwargs tr)
      as (rest & -> & _ & Hrest).
    exists rest. split; [done|]. intros ev Hev. right. by apply Hrest.
Qed.

(** X7. A job application composes end to end when the mapping names the
    hiring manager, the job title, the company, the skills and the
    applicant (and has no field called [self] or [template_name]) and
    the analysis has at least three sections: the three remaining
    fields come from the analysis, and the generation is three calls,
    the page fetch, the analysis request and the request for the draft,
    whose answer or exception is the outcome. *)
Theorem generate_cold_email_job_application_composes (env : Env)
    (kwargs : gmap string string) (tr : trace)
    (website_context analysis_result : string) :
  kwargs !! "self" = None ->
  kwargs !! "template_name" = None ->
  (forall f, f ∈ ["hiring_manager_name"; "job_title"; "company_name";
                  "relevant_skills"; "applicant_name"] -> is_Some (kwargs !! f)) ->
  scrape_website env (dict_get kwargs "job_url") tr
  = (inr website_context, tr ++ [HttpGet (dict_get kwargs "job_url")]) ->
  chat_completions_create env (tr ++ [HttpGet (dict_get kwargs "job_url")]) model_id
    [Message "user" (analysis_prompt website_context (dict_get kwargs "relevant_skills"))]
  = inr analysis_result ->
  (3 <= length (Py.split analysis_result blank_line))%nat ->
  exists kwargs',
    analysis_update analysis_result kwargs = inr kwargs' /\
    generate_cold_email env "job_application" kwargs tr
    = (chat_completions_create env
         (tr ++ [HttpGet (dict_get kwargs "job_url");
                 ChatCompletion model_id
                   [Message "user"
                      (analysis_prompt website_context
                         (dict_get kwargs "relevant_skills"))]])
         model_id
         [Message "user" (fill kwargs' (parse job_application_template))],
       tr ++ [HttpGet (dict_get kwargs "job_url");
              ChatCompletion model_id
                [Message "user"
                   (analysis_prompt website_context
                      (dict_get kwargs "relevant_skills"))];
              ChatCompletion model_id
                [Message "user" (fill kwargs' (parse job_application_template))]]).
Proof.
  intros Hself Hname Hall Hscrape Hanalysis Hlen.
  pose proof (analysis_update_eq analysis_result kwargs) as Hupdate.
  destruct (Py.split analysis_result blank_line !! 2%nat) as [third|] eqn:H2;
    [|apply lookup_ge_None in H2; lia].
  destruct (last _) as [last_section|] eqn:Hlast;
    [|apply last_None in Hlast; rewrite Hlast in Hlen; simpl in Hlen; lia].
  eexists. split; [exact Hupdate|].
  unfold generate_cold_email, bind_keywords. rewrite Hname.
  unfold bind at 1, lift. rewrite String.eqb_refl. cbv zeta.
  unfold bind at 1. rewrite Hscrape.
  unfold bind at 1. unfold completion at 1, call. rewrite Hanalysis.
  unfold bind at 1. rewrite Hupdate.
  match goal with
  | |- context [customize_template env ?n ?k ?t] =>
      pose proof (customize_template_eq env n _ k t
                    ltac:(by rewrite !lookup_insert_ne)
                    ltac:(by rewrite !lookup_insert_ne) eq_refl) as Hcompose
  end.
  cbn [template required_fields] in Hcompose. rewrite Hcompose. clear Hcompose.
  match goal with
  | |- context [first_missing ?k ?l] =>
      assert (Hnone : first_missing k l = None)
  end.
  { apply first_missing_None. intros f Hf. simpl in Hf.
    repeat (apply elem_of_cons in Hf as [->|Hf]); try (by apply elem_of_nil in Hf);
      rewrite !lookup_insert; repeat case_decide; try congruence;
      try (by eexists); apply Hall; simpl; repeat (first [by left | right]). }
  rewrite Hnone. unfold completion, call. by rewrite <- !app_assoc.
Qed.

Lemma generate_cold_email_job_application_composes_witness :
  length (calls (generate_cold_email Sample.env_ok "job_application"
                   (Sample.job_inputs ∪ Sample.job_fields) [])) = 3%nat.
Proof.
  destruct (generate_cold_email_job_application_composes Sample.env_ok
              (Sample.job_inputs ∪ Sample.job_fields) []
              "Careers We are hiring. Apply today. Contact" Sample.analysis_text)
    as (kwargs' & _ & ->).
  - by vm_compute.
  - by vm_compute.
  - intros f Hf.
    repeat (apply elem_of_cons in Hf as [->|Hf]); try (by apply elem_of_nil in Hf);
      vm_compute; by eexists.
  - by vm_compute.
  - by vm_compute.
  - apply Nat.leb_le. by vm_compute.
  - reflexivity.
Defined.

(** X8. For a job application the values the caller gives for
    [experience_summary], [key_achievements] and [reason_for_interest]
    are never used: the outcome and the calls are those of the mapping
    without them. *)
Theorem generate_cold_email_overwrites_analysis_fields (env : Env)
    (kwargs : gmap string string) (tr : trace) (k v : string) :
  k ∈ ["experience_summary"; "key_achievements"; "reason_for_interest"] ->
  generate_cold_email env "job_application" (<[k := v]> kwargs) tr
  = generate_cold_email env "job_application" kwargs tr.
Proof.
  intros Hk.
  assert (Hother : forall j, j ∈ ["template_name"; "relevant_skills"; "job_url"] ->
                             (<[k := v]> kwargs) !! j = kwargs !! j).
  { intros j Hj. apply lookup_insert_ne. intros <-.
    repeat (apply elem_of_cons in Hk as [->|Hk]); try (by apply elem_of_nil in Hk);
      repeat (apply elem_of_cons in Hj as [Hj|Hj]); try done;
      by apply elem_of_nil in Hj. }
  unfold generate_cold_email, bind_keywords, dict_get.
  rewrite !Hother by (simpl; repeat (first [by left | right])).
  unfold bind, lift.
  destruct (kwargs !! "template_name"); [done|].
  rewrite String.eqb_refl. cbv zeta.
  destruct (scrape_website env _ tr) as [[e|ctx] tr1]; [done|].
  destruct (completion env _ tr1) as [[e|analysis_result] tr2]; [done|].
  by rewrite analysis_update_insert.
Qed.

Lemma generate_cold_email_overwrites_analysis_fields_witness :
  generate_cold_email Sample.env_ok "job_application"
    (<["key_achievements" := "I won a prize."]> (Sample.job_inputs ∪ Sample.job_fields)) []
  = generate_cold_email Sample.env_ok "job_application"
      (Sample.job_inputs ∪ Sample.job_fields) [].
Proof.
  apply generate_cold_email_overwrites_analysis_fields. right. by left.
Defined.

(** ** The generation callback *)

(** With the draft generated and the row appended, the single turn of
    the generation callback is the generation message of the draft. *)
Lemma generate_email_action_success env template_name name email skills url dyn
    tr tr1 draft :
  generate_cold_email env template_name (ui_fields name email skills url dyn) tr
  = (inr draft, tr1) ->
  sheets_append env tr1 [name; email; template_name; skills; url] = inr tt ->
  generate_email_action env template_name name email skills url dyn tr
  = (inr [(None, Some (generation_message draft))],
     tr1 ++ [SheetsAppend [name; email; template_name; skills; url]]).
Proof.
  intros Hgen Hsheet.
  unfold generate_email_action, try_except, bind, save_to_google_sheets, call, ret.
  cbv zeta. fold (ui_fields name email skills url dyn).
  by rewrite Hgen, Hsheet.
Qed.

(** X9. When the draft was generated and the spreadsheet service raises,
    the generation callback discards the draft: the single turn it
    returns shows the text of the spreadsheet exception. *)
Theorem generate_email_action_sheet_failure_discards_draft (env : Env)
    (template_name name email skills url : string) (dyn : gmap string string)
    (tr tr1 : trace) (draft : string) (e : exn) :
  generate_cold_email env template_name (ui_fields name email skills url dyn) tr
  = (inr draft, tr1) ->
  sheets_append env tr1 [name; email; template_name; skills; url] = inl e ->
  generate_email_action env template_name name email skills url dyn tr
  = (inr [(None, Some ("Error generating email: " +:+ str_exn e))],
     tr1 ++ [SheetsAppend [name; email; template_name; skills; url]]).
Proof.
  intros Hgen Hsheet.
  unfold generate_email_action, try_except, bind, save_to_google_sheets, call, ret.
  cbv zeta. fold (ui_fields name email skills url dyn).
  by rewrite Hgen, Hsheet.
Qed.

Lemma generate_email_action_sheet_failure_discards_draft_witness :
  returned (generate_email_action Sample.env_no_sheet "sales_pitch" "Sam"
              "sam@widget.co" EmptyString EmptyString Sample.sales_fields [])
  = Some [(None, Some "Error generating email: quota exceeded")].
Proof.
  erewrite (generate_email_action_sheet_failure_discards_draft Sample.env_no_sheet
              "sales_pitch" "Sam" "sam@widget.co" EmptyString EmptyString
              Sample.sales_fields [] _ _ (ExternalError "quota exceeded"));
    [reflexivity | by vm_compute | reflexivity].
Defined.

(** X10. The generation callback never raises, and it appends a row to
    the spreadsheet only after the draft was generated: the row is the
    last call, and it holds the name, the address, the template name,
    the skills and the URL, in this order. *)
Theorem generate_email_action_appends_row_after_success (env : Env)
    (template_name name email skills url : string) (dyn : gmap string string)
    (tr : trace) :
  exists turns rest,
    generate_email_action env template_name name email skills url dyn tr
    = (inr turns, tr ++ rest) /\
    forall row, SheetsAppend row ∈ rest ->
      row = [name; email; template_name; skills; url] /\
      last rest = Some (SheetsAppend row) /\
      exists draft tr1,
        generate_cold_email env template_name (ui_fields name email skills url dyn) tr
        = (inr draft, tr1).
Proof.
  destruct (generate_cold_email_calls_kinds env template_name
              (ui_fields name email skills url dyn) tr) as (rest & Hcalls & Hkinds).
  assert (Hnot : forall row, SheetsAppend row ∉ rest).
  { intros row Hin. by destruct (Hkinds _ Hin) as [[u Hu]|[m Hm]]. }
  unfold generate_email_action, try_except, bind, save_to_google_sheets, call, ret.
  cbv zeta. fold (ui_fields name email skills url dyn).
  unfold calls in Hcalls.
  destruct (generate_cold_email env template_name _ tr) as [[e|draft] tr1];
    simpl in Hcalls; subst tr1.
  - eexists _, rest. split; [done|]. intros row Hin. by destruct (Hnot row).
  - exists (match sheets_append env (tr ++ rest)
                     [name; email; template_name; skills; url] with
            | inr _ =>
                [(None,
                  Some ("Here's your generated email:" +:+ blank_line +:+ draft
                        +:+ blank_line
                        +:+ "You can now edit this email by sending your edit requests."))]
            | inl e => [(None, Some ("Error generating email: " +:+ str_exn e))]
            end),
      (rest ++ [SheetsAppend [name; email; template_name; skills; url]]).
    split.
    + rewrite app_assoc. by destruct (sheets_append env _ _) as [e|[]].
    + intros row [Hin|Hin]%elem_of_app; [by destruct (Hnot row)|].
      apply list_elem_of_singleton in Hin. injection Hin as ->.
      split; [done|]. split; [by rewrite last_snoc|]. by eexists _, _.
Qed.

(** ** Splitting and searching *)

Lemma split_go_nonempty sep s : forall skip, Py.split_go sep s skip <> [].
Proof.
  induction s as [|c s IH]; intros skip; simpl; [done|].
  destruct skip as [|k]; [|apply IH].
  destruct (Py.startswith sep (String c s)); [done|].
  by destruct (Py.split_go sep s 0).
Qed.

Lemma startswith_app sep b : Py.startswith sep (sep +:+ b) = true.
Proof.
  induction sep as [|c sep IH]; simpl; [done|]. by rewrite Ascii.eqb_refl.
Qed.

Lemma split_go_match sep c s :
  Py.startswith sep (String c s) = true ->
  Py.split_go sep (String c s) 0
  = EmptyString :: Py.split_go sep s (String.length sep - 1).
Proof. simpl Py.split_go. by intros ->. Qed.

Lemma split_go_no_match sep c s :
  Py.startswith sep (String c s) = false ->
  length (Py.split_go sep (String c s) 0) = length (Py.split_go sep s 0).
Proof.
  simpl Py.split_go. intros ->.
  pose proof (split_go_nonempty sep s 0) as Hne.
  by destruct (Py.split_go sep s 0).
Qed.

Lemma split_go_match_length sep c s :
  Py.startswith sep (String c s) = true ->
  (2 <= length (Py.split_go sep (String c s) 0))%nat.
Proof.
  intros Hmatch. rewrite (split_go_match _ _ _ Hmatch).
  pose proof (split_go_nonempty sep s (String.length sep - 1)) as Hne.
  destruct (Py.split_go sep s _); [done|simpl; lia].
Qed.

(** A string in which the separator occurs splits into two pieces or
    more. *)
Lemma split_at_least_two sep a b :
  sep <> EmptyString -> (2 <= length (Py.split (a +:+ sep +:+ b) sep))%nat.
Proof.
  intros Hsep. unfold Py.split. induction a as [|c a IH].
  - destruct sep as [|c sep]; [done|].
    apply split_go_match_length. apply (startswith_app (String c sep) b).
  - change (String c a +:+ sep +:+ b) with (String c (a +:+ sep +:+ b)).
    destruct (Py.startswith sep (String c (a +:+ sep +:+ b))) eqn:Hmatch.
    + by apply split_go_match_length.
    + by rewrite (split_go_no_match _ _ _ Hmatch).
Qed.

Lemma find_from_None sub s :
  forall i j, Py.find_from sub s i = None -> Py.find_from sub s j = None.
Proof.
  induction s as [|c s IH]; intros i j; simpl.
  - by destruct (Py.startswith sub EmptyString).
  - destruct (Py.startswith sub (String c s)); [done|]. apply IH.
Qed.

Lemma find_minus_one s sub : Py.find s sub = -1 <-> Py.find_from sub s 0 = None.
Proof.
  unfold Py.find. destruct (Py.find_from sub s 0) as [i|]; [|done].
  split; [lia|done].
Qed.

(** A string in which the separator does not occur is its own single
    piece. *)
Lemma split_without_sep s sep : Py.find s sep = -1 -> Py.split s sep = [s].
Proof.
  rewrite find_minus_one. unfold Py.split.
  induction s as [|c s IH]; simpl; [done|].
  destruct (Py.startswith sep (String c s)); [done|].
  intros Hnone. by rewrite (IH (find_from_None _ _ _ _ Hnone)).
Qed.

Lemma getitem_neg_two {A} (l : list A) :
  (2 <= length l)%nat -> exists x, getitem_neg l 2 = inr x.
Proof.
  intros Hlen. unfold getitem_neg, getitem.
  destruct (2 <=? length l)%nat eqn:Hle; [|apply Nat.leb_gt in Hle; lia].
  destruct (l !! (length l - 2)%nat) as [x|] eqn:Hx; [by eexists|].
  apply lookup_ge_None in Hx. lia.
Qed.

(** ** The edit chat, reply by reply *)

Lemma chat_function_eq env message h0 rest tr reply section :
  h0.2 = Some reply ->
  getitem_neg (Py.split reply blank_line) 2 = inr section ->
  chat_function env message (h0 :: rest) tr =
  (match chat_completions_create env tr model_id
           (edit_messages section (Py.join Py.nl (map transcript_line (h0 :: rest)))
              (Py.str_opt message)) with
   | inr edited_email => inr (edit_message edited_email)
   | inl e => inl e
   end,
   tr ++ [ChatCompletion model_id
            (edit_messages section (Py.join Py.nl (map transcript_line (h0 :: rest)))
               (Py.str_opt message))]).
Proof.
  intros Hreply Hsection. unfold chat_function, bind, lift, completion, call, ret.
  rewrite Hreply, Hsection. unfold edit_messages.
  by destruct (chat_completions_create env tr _ _) as [e|edited].
Qed.

Lemma generation_message_section draft :
  exists section,
    getitem_neg (Py.split (generation_message draft) blank_line) 2 = inr section.
Proof.
  apply getitem_neg_two. unfold generation_message.
  by apply split_at_least_two.
Qed.

(** X11. In a session whose first reply is the message of a successful
    generation, whatever the draft and the later turns are, every edit
    request reaches the language model: [chat_function] makes one
    completion request, with the system message first, and returns the
    answer inside the edit message, or raises the model's exception. *)
Theorem chat_function_after_generation_asks_model (env : Env)
    (message request : option string) (draft : string) (rest : list turn)
    (tr : trace) :
  exists section,
    getitem_neg (Py.split (generation_message draft) blank_line) 2 = inr section /\
    chat_function env message ((request, Some (generation_message draft)) :: rest) tr =
    (match chat_completions_create env tr model_id
             (edit_messages section
                (Py.join Py.nl
                   (map transcript_line
                      ((request, Some (generation_message draft)) :: rest)))
                (Py.str_opt message)) with
     | inr edited_email => inr (edit_message edited_email)
     | inl e => inl e
     end,
     tr ++ [ChatCompletion model_id
              (edit_messages section
                 (Py.join Py.nl
                    (map transcript_line
                       ((request, Some (generation_message draft)) :: rest)))
                 (Py.str_opt message))]).
Proof.
  destruct (generation_message_section draft) as [section Hsection].
  exists section. split; [done|].
  by apply (chat_function_eq _ _ _ _ _ (generation_message draft)).
Qed.

(** X12. When the first reply of the history has no blank line, as the
    reply of a failed generation has whose error text has none, every
    edit request raises [IndexError] and the language model is not
    called; when the first turn has no reply at all, the edit request
    raises [AttributeError]. *)
Theorem chat_function_first_reply_without_blank_line (env : Env)
    (message request : option string) (reply : string) (rest : list turn)
    (tr : trace) :
  Py.find reply blank_line = -1 ->
  chat_function env message ((request, Some reply) :: rest) tr
  = (inl list_index_out_of_range, tr) /\
  chat_function env message ((request, None) :: rest) tr = (inl no_split, tr).
Proof.
  intros Hfind. unfold chat_function, bind, lift. simpl.
  by rewrite (split_without_sep _ _ Hfind).
Qed.

Lemma chat_function_first_reply_without_blank_line_witness :
  chat_function Sample.env_ok (Some "make it shorter")
    [(None, Some "Error generating email: 'recipient_name'")] []
  = (inl (IndexError "list index out of range"), []).
Proof.
  apply (chat_function_first_reply_without_blank_line Sample.env_ok
           (Some "make it shorter") None "Error generating email: 'recipient_name'"
           [] []).
  by vm_compute.
Defined.

(** X13. With the language model answering every request, a session
    started by a successful generation takes any number of edit
    requests: the run returns a history, and it makes one call for
    each request. *)
Theorem edits_succeed_when_model_answers (env : Env) (draft : string)
    (requests : list string) (tr : trace) :
  (forall tr' msgs, exists answer,
      chat_completions_create env tr' model_id msgs = inr answer) ->
  exists history tr',
    edits env requests [(None, Some (generation_message draft))] tr
    = (inr history, tr') /\
    length history = (1 + length requests)%nat /\
    length tr' = (length tr + length requests)%nat.
Proof.
  intros Hmodel.
  assert (Hgen : forall rest tr0,
            exists history tr',
              edits env requests ((None, Some (generation_message draft)) :: rest) tr0
              = (inr history, tr') /\
              length history = (1 + length rest + length requests)%nat /\
              length tr' = (length tr0 + length requests)%nat).
  { induction requests as [|r rs IH]; intros rest tr0; simpl.
    - eexists _, _. split; [reflexivity|]. simpl. lia.
    - unfold bind. rewrite edit_eq.
      destruct (generation_message_section draft) as [section Hsection].
      rewrite (chat_function_eq env (Some r) (None, Some (generation_message draft))
                 rest tr0 (generation_message draft) section eq_refl Hsection).
      destruct (Hmodel tr0
                  (edit_messages section
                     (Py.join Py.nl
                        (map transcript_line
                           ((None, Some (generation_message draft)) :: rest)))
                     (Py.str_opt (Some r)))) as [answer ->].
      destruct (IH (rest ++ [(Some r, Some (edit_message answer))])
                  (tr0 ++ [ChatCompletion model_id
                             (edit_messages section
                                (Py.join Py.nl
                                   (map transcript_line
                                      ((None, Some (generation_message draft)) :: rest)))
                                r)]))
        as (history & tr' & Hrun & Hlen & Htr).
      exists history, tr'. split; [exact Hrun|].
      rewrite length_app in Hlen, Htr. simpl in *. lia. }
  destruct (Hgen [] tr) as (history & tr' & Hrun & Hlen & Htr).
  exists history, tr'. split; [done|]. simpl in Hlen. lia.
Qed.

Lemma edits_succeed_when_model_answers_witness :
  exists history tr',
    edits Sample.env_ok ["make it shorter"; "add a postscript"]
      [(None, Some (generation_message "Dear Alex"))] [] = (inr history, tr') /\
    length history = 3%nat /\ length tr' = 2%nat.
Proof.
  apply (edits_succeed_when_model_answers Sample.env_ok "Dear Alex"
           ["make it shorter"; "add a postscript"] []).
  intros tr' msgs. eexists. reflexivity.
Defined.

(** ** Strings, once more *)

Lemma take_app_len a b : Py.take (Py.len a) (a +:+ b) = a.
Proof. unfold Py.len. induction a as [|c a IH]; simpl; [by destruct b|by rewrite IH]. Qed.

Lemma take_all s : forall n, (Py.len s <= n)%nat -> Py.take n s = s.
Proof.
  unfold Py.len. induction s as [|c s IH]; intros n Hle; destruct n as [|n];
    simpl in *; try done; try lia.
  rewrite IH; [done|lia].
Qed.

Lemma len_drop s : forall n, Py.len (Py.drop n s) = (Py.len s - n)%nat.
Proof.
  unfold Py.len. induction s as [|c s IH]; intros [|n]; simpl; try done.
Qed.

Lemma find_startswith s sub : Py.startswith sub s = true -> Py.find s sub = 0.
Proof. unfold Py.find. destruct s; simpl; by intros ->. Qed.

(** Stripping on the right leaves a string alone that ends in a piece
    it leaves alone. *)
Lemma rstrip_app_fixed a b :
  b <> EmptyString -> Py.rstrip b = b ->
  Py.rstrip (a +:+ b) = a +:+ b /\ a +:+ b <> EmptyString.
Proof.
  intros Hne Hfix. induction a as [|c a [IH IHne]]; [done|].
  change (String c a +:+ b) with (String c (a +:+ b)).
  split; [|done]. cbn [Py.rstrip]. rewrite IH.
  destruct (a +:+ b) as [|c' r]; [by destruct IHne|reflexivity].
Qed.

(** ** Sending *)

(** X14. The send callback calls the delivery service at most once, and
    only when the history has a turn, the recipient box is not empty
    and the last turn has a reply: the message then goes to the
    recipient, with the subject [Professional Communication] and the
    content cut out of that last reply. *)
Theorem send_email_action_delivers_last_reply (env : Env)
    (name email recipient : string) (chatbot : list turn) (tr : trace) :
  exists rest,
    calls (send_email_action env name email recipient chatbot tr) = tr ++ rest /\
    (length rest <= 1)%nat /\
    forall ev, ev ∈ rest ->
      chatbot <> [] /\ recipient <> EmptyString /\
      exists reply,
        latest_reply chatbot = Some reply /\
        ev = ResendSend (send_params name email recipient "Professional Communication"
                           (extract_email_content reply)).
Proof.
  assert (Hnone : exists rest : trace,
             tr = tr ++ rest /\ (length rest <= 1)%nat /\
             forall ev, ev ∈ rest ->
               chatbot <> [] /\ recipient <> EmptyString /\
               exists reply,
                 latest_reply chatbot = Some reply /\
                 ev = ResendSend (send_params name email recipient
                                    "Professional Communication"
                                    (extract_email_content reply))).
  { exists []. rewrite app_nil_r. split; [done|]. split; [simpl; lia|].
    by intros ev ?%elem_of_nil. }
  unfold send_email_action, calls.
  destruct chatbot as [|t h] eqn:Hchat; [exact Hnone|]. rewrite <- Hchat in *.
  destruct (String.eqb recipient EmptyString) eqn:Hrec; [exact Hnone|].
  apply String.eqb_neq in Hrec.
  unfold bind, lift.
  destruct (getitem_neg chatbot 1) as [e|[req [reply|]]] eqn:Hlast;
    [exact Hnone| |exact Hnone].
  rewrite send_email_eq. cbv zeta. simpl.
  eexists [_]. split; [reflexivity|]. split; [simpl; lia|].
  intros ev [->|?%elem_of_nil]%elem_of_cons; [|done].
  split; [by rewrite Hchat|]. split; [done|]. exists reply.
  split; [|done]. unfold latest_reply. by rewrite Hlast.
Qed.

(** X15. The round trip of a draft through the generation message:
    when the first place where the end marker stands in the message is
    the one the message itself puts after the draft, the content the
    send callback cuts out is the draft, stripped of the white space
    around it. *)
Theorem extract_email_content_of_generation_message (draft : string) :
  Py.find (generation_message draft) end_marker = Z.of_nat (30 + Py.len draft) ->
  extract_email_content (generation_message draft) = Py.strip draft.
Proof.
  intros Hend. unfold extract_email_content. cbv zeta.
  fold start_marker. fold end_marker. rewrite Hend.
  rewrite (find_startswith (generation_message draft) start_marker) by reflexivity.
  assert (Hfound : (Z.of_nat (30 + Py.len draft) =? -1) = false)
    by (apply Z.eqb_neq; lia).
  rewrite Hfound.
  unfold Py.slice.
  replace (Z.to_nat (Z.of_nat (30 + Py.len draft))
           - Z.to_nat (0 + Z.of_nat (Py.len start_marker)))%nat
    with (S (S (Py.len draft))) by (vm_compute (Py.len start_marker); lia).
  change (Py.drop (Z.to_nat (0 + Z.of_nat (Py.len start_marker)))
            (generation_message draft))
    with (String "010" (String "010"
            (draft +:+ blank_line
             +:+ "You can now edit this email by sending your edit requests."))).
  cbn [Py.take]. by rewrite take_app_len.
Qed.

Lemma extract_email_content_of_generation_message_witness :
  extract_email_content
    (generation_message ("Dear Alex," +:+ blank_line +:+ "Widget saves time."))
  = "Dear Alex," +:+ blank_line +:+ "Widget saves time.".
Proof.
  rewrite extract_email_content_of_generation_message; by vm_compute.
Defined.

(** X16. After an edit the send callback does not send the draft alone.
    When the edit message holds neither marker, the search for the
    start marker answers -1, the cut starts at character 27 of the
    message, and the content sent is the message from [of your email]
    on, with the sentence that follows the draft. *)
Theorem extract_email_content_of_edit_message (edited_email : string) :
  Py.find (edit_message edited_email) start_marker = -1 ->
  Py.find (edit_message edited_email) end_marker = -1 ->
  extract_email_content (edit_message edited_email)
  = "of your email based on your request:" +:+ blank_line +:+ edited_email
    +:+ blank_line
    +:+ "You can continue to edit this email by sending more edit requests.".
Proof.
  intros Hstart Hend. unfold extract_email_content. cbv zeta.
  fold start_marker. fold end_marker. rewrite Hstart, Hend.
  change (-1 =? -1) with true. cbv iota.
  unfold Py.slice. rewrite Nat2Z.id.
  change (Z.to_nat (-1 + Z.of_nat (Py.len start_marker))) with 27%nat.
  rewrite take_all by (rewrite len_drop; lia).
  change (Py.drop 27 (edit_message edited_email))
    with ("of your email based on your request:" +:+ blank_line +:+ edited_email
          +:+ blank_line
          +:+ "You can continue to edit this email by sending more edit requests.").
  unfold Py.strip.
  change (Py.lstrip ("of your email based on your request:" +:+ ?x))
    with ("of your email based on your request:" +:+ x).
  assert (Htail : Py.rstrip
            (blank_line
             +:+ "You can continue to edit this email by sending more edit requests.")
            = blank_line
              +:+ "You can continue to edit this email by sending more edit requests.")
    by (by vm_compute).
  assert (Htail_ne :
            blank_line
            +:+ "You can continue to edit this email by sending more edit requests."
            <> EmptyString) by discriminate.
  destruct (rstrip_app_fixed edited_email _ Htail_ne Htail) as [H1 H1ne].
  destruct (rstrip_app_fixed blank_line _ H1ne H1) as [H2 H2ne].
  by destruct (rstrip_app_fixed "of your email based on your request:" _ H2ne H2).
Qed.

Lemma extract_email_content_of_edit_message_witness :
  extract_email_content
    (edit_message ("Dear Alex," +:+ blank_line +:+ "Widget saves you time."))
  = "of your email based on your request:" +:+ blank_line
    +:+ "Dear Alex," +:+ blank_line +:+ "Widget saves you time." +:+ blank_line
    +:+ "You can continue to edit this email by sending more edit requests.".
Proof.
  apply (extract_email_content_of_edit_message
           ("Dear Alex," +:+ blank_line +:+ "Widget saves you time.")); by vm_compute.
Defined.

(** X17. While an edit request waits for its reply, the turn [user]
    appended has none: the send callback then raises [AttributeError]
    and calls nothing. *)
Theorem send_email_action_pending_turn_raises (env : Env)
    (name email recipient user_message : string) (history : list turn) (tr : trace) :
  recipient <> EmptyString ->
  send_email_action env name email recipient (user user_message history).2 tr
  = (inl no_find, tr).
Proof.
  intros Hrec. apply String.eqb_neq in Hrec.
  unfold send_email_action, user. cbn [snd].
  destruct (history ++ [(Some user_message, None)]) as [|t h] eqn:Hh;
    [by destruct history|].
  rewrite <- Hh, Hrec. unfold bind, lift. by rewrite getitem_neg_snoc.
Qed.

Lemma send_email_action_pending_turn_raises_witness :
  send_email_action Sample.env_ok "Sam" "sam@widget.co" "alex@acme.com"
    (user "make it shorter" Sample.two_turns).2 []
  = (inl (AttributeError "'NoneType' object has no attribute 'find'"), []).
Proof.
  apply (send_email_action_pending_turn_raises Sample.env_ok "Sam" "sam@widget.co"
           "alex@acme.com" "make it shorter" Sample.two_turns []).
  discriminate.
Defined.

(** ** The analysis, at its edge *)

(** X18. When the third section of the analysis is a single line, the
    list of key achievements is the bare dash [- ]: the first line of
    the section is dropped, and nothing is left to list. *)
Theorem key_achievements_of_single_line_section (analysis_result third : string) :
  Py.split analysis_result blank_line !! 2%nat = Some third ->
  Py.find third Py.nl = -1 ->
  key_achievements_of analysis_result = inr "- ".
Proof.
  intros Hthird Hline. unfold key_achievements_of, getitem.
  by rewrite Hthird, (split_without_sep _ _ Hline).
Qed.

Lemma key_achievements_of_single_line_section_witness :
  key_achievements_of
    ("Required Skills: writing" +:+ blank_line +:+ "Matching Skills: writing"
     +:+ blank_line +:+ "Growth Ideas: none" +:+ blank_line +:+ "Suggestions: none")
  = inr "- ".
Proof.
  apply (key_achievements_of_single_line_section _ "Growth Ideas: none");
    by vm_compute.
Defined.

(** ** What the edit prompt contains *)














(** The sessions the callbacks build are the sessions of [session_of]:
    a run of edit requests that succeed extends a session by one
    revision for each request. *)
Lemma edits_build_session env draft requests :
  forall revisions tr history tr',
    edits env requests (session_of draft revisions) tr = (inr history, tr') ->
    exists revisions',
      history = session_of draft (revisions ++ revisions') /\
      map fst revisions' = requests.
Proof.
  induction requests as [|r rs IH]; intros revisions tr history tr' Hrun;
    simpl in Hrun.
  - injection Hrun as <- _. exists []. by rewrite app_nil_r.
  - unfold bind in Hrun. rewrite edit_eq in Hrun.
    destruct (generation_message_section draft) as [section Hsection].
    unfold session_of in Hrun at 1.
    rewrite (chat_function_eq env (Some r) (None, Some (generation_message draft))
               _ tr (generation_message draft) section eq_refl Hsection) in Hrun.
    destruct (chat_completions_create env tr _ _) as [e|answer]; [done|].
    assert (Hnext : session_of draft revisions ++ [(Some r, Some (edit_message answer))]
                    = session_of draft (revisions ++ [(r, answer)])).
    { unfold session_of. by rewrite map_app. }
    rewrite Hnext in Hrun.
    destruct (IH _ _ _ _ Hrun) as (revisions' & -> & Hfst).
    exists ((r, answer) :: revisions'). split; [by rewrite <- app_assoc|].
    simpl. by rewrite Hfst.
Qed.

